(** * nostr-mocrelay: the websocket receive path, embedded and verified

    The repository's [relay.go] is present in two revisions and [main.go] in
    two revisions as well:

    - [V1]: the [HandleWebsocket] revision (free functions [wsReceiver],
      [wsRead], [serveClient*MsgJSON] over a [*Router] and a [*DB]);
    - [V2]: the [RelayHandler] revision (the same functions as methods of
      [RelayHandler], over [Relay.router] and [Relay.cache]);
    - [Main0]: [main.go] with a literal cache size;
    - [Main1]: [main.go] with the command-line flags.

    Each is embedded as it is written.  The reader task of a connection is
    sequential, so it is modelled by explicit state passing: a world holding
    the cache, the router and the ordered trace of the calls the task makes
    (channel sends included).  What the tasks of other connections do to the
    router and the cache between two calls is not interleaved.  The
    collaborators whose code is not part of the sources (router, cache, JSON
    codec, signature check) are operations of a type class. *)

From Stdlib Require Import ZArith List String Lia Bool.
From Stdlib Require Import Strings.Byte.
Import ListNotations.
Open Scope Z_scope.

(** ** Go values used by the relay *)

Module Go.

(** A Go [error].  [nil] is [None : option error].  [fmt_Errorf_w] is
    [fmt.Errorf] with a [%w] operand, [fmt_Errorf] without one. *)
Inductive error : Type :=
| io_EOF
| external (what : string)
| fmt_Errorf (format : string)
| fmt_Errorf_w (format : string) (wrapped : error).

(** Go's [int] on the 64-bit targets the relay is built for. *)
Definition int_min : Z := - 2 ^ 63.
Definition int_max : Z := 2 ^ 63 - 1.
Definition wrap_int (z : Z) : Z := (z - int_min) mod 2 ^ 64 + int_min.

(** A Go [string] is a byte sequence; [string(payload)] copies the bytes. *)
Definition gostring : Type := list byte.
Definition string_of_bytes (payload : list byte) : gostring := payload.

Definition byte_val (b : byte) : Z := Z.of_N (Byte.to_N b).

Definition len {A : Type} (l : list A) : Z := Z.of_nat (List.length l).

(** *** [unicode/utf8.Valid]

    The standard library's table [first] gives, for a leading byte, the
    size of the sequence and the accepted range of the second byte. *)
Inductive lead : Type :=
| lead_ascii
| lead_invalid
| lead_seq (size : nat) (lo hi : Z).

Definition locb : Z := 0x80.
Definition hicb : Z := 0xBF.

Definition first (c : Z) : lead :=
  if c <? 0x80 then lead_ascii
  else if c <? 0xC2 then lead_invalid
  else if c <? 0xE0 then lead_seq 2 locb hicb
  else if c =? 0xE0 then lead_seq 3 0xA0 hicb
  else if c <? 0xED then lead_seq 3 locb hicb
  else if c =? 0xED then lead_seq 3 locb 0x9F
  else if c <? 0xF0 then lead_seq 3 locb hicb
  else if c =? 0xF0 then lead_seq 4 0x90 hicb
  else if c <? 0xF4 then lead_seq 4 locb hicb
  else if c =? 0xF4 then lead_seq 4 locb 0x8F
  else lead_invalid.

Definition in_range (lo hi : Z) (b : byte) : bool :=
  (lo <=? byte_val b) && (byte_val b <=? hi).

Fixpoint utf8_Valid (p : list byte) : bool :=
  match p with
  | [] => true
  | b0 :: r0 =>
      match first (byte_val b0) with
      | lead_ascii => utf8_Valid r0
      | lead_invalid => false
      | lead_seq 2 lo hi =>
          match r0 with
          | b1 :: r1 => in_range lo hi b1 && utf8_Valid r1
          | _ => false
          end
      | lead_seq 3 lo hi =>
          match r0 with
          | b1 :: b2 :: r2 =>
              in_range lo hi b1 && in_range locb hicb b2 && utf8_Valid r2
          | _ => false
          end
      | lead_seq 4 lo hi =>
          match r0 with
          | b1 :: b2 :: b3 :: r3 =>
              in_range lo hi b1 && in_range locb hicb b2
              && in_range locb hicb b3 && utf8_Valid r3
          | _ => false
          end
      | lead_seq _ _ _ => false
      end
  end.

(** *** [gobwas/ws]: the frame a [wsutil.Reader] is positioned on

    What one call of [wsRead] can observe of its reader: the result of
    [NextFrame] (an error, or a header with its opcode), then the bytes a
    [Read] loop obtains before the stream ends, and how it ends ([None]: a
    clean end of message; [Some e]: the transport failed with [e]). *)
Inductive OpCode : Type :=
| OpContinuation | OpText | OpBinary | OpClose | OpPing | OpPong.

Definition OpCode_eqb (a b : OpCode) : bool :=
  match a, b with
  | OpContinuation, OpContinuation | OpText, OpText | OpBinary, OpBinary
  | OpClose, OpClose | OpPing, OpPing | OpPong, OpPong => true
  | _, _ => false
  end.

Record Reader : Type := mkReader {
  NextFrame_err : option error;
  hdr_OpCode : OpCode;
  payload_bytes : list byte;
  payload_err : option error
}.

(** [io.ReadAll(io.LimitReader(wsr, n))].  A [LimitedReader] reports the
    end of input once [n <= 0] bytes remain, without reading further; until
    then it passes the underlying reads through.  [ReadAll] returns what it
    read, with the error that stopped it unless that is the end of input. *)
Definition ReadAll_LimitReader (wsr : Reader) (n : Z)
  : list byte * option error :=
  if n <=? 0 then ([], None)
  else if n <=? len (payload_bytes wsr)
       then (firstn (Z.to_nat n) (payload_bytes wsr), None)
       else (payload_bytes wsr, payload_err wsr).

(** *** [flag.Int] after [flag.Parse]

    The command line as the sequence of [-name value] settings that parsed
    as integers; a later setting of a flag overrides an earlier one. *)
Definition cmdline : Type := list (string * Z).

Definition flag_Int (name : string) (value : Z) (args : cmdline) : Z :=
  fold_left
    (fun cur kv => if String.eqb (fst kv) name then snd kv else cur)
    args value.

End Go.

Import Go.

(** ** Wire messages and events *)

(** [time.Time], as an instant on the wall clock (Unix seconds). *)
Definition Time : Type := Z.

(** [ClientReqMsgJSON], [ClientCloseMsgJSON], [ClientEventMsgJSON]: the three
    dynamic types [wsReceiver] switches on; [ClientOtherMsgJSON] stands for
    any other value of the [ClientMsgJSON] interface, which no case of the
    switch matches. *)
Record ClientReqMsgJSON (FilterJSON : Type) : Type := mkClientReqMsgJSON {
  ReqSubscriptionID : string;
  FilterJSONs : list FilterJSON
}.
Arguments mkClientReqMsgJSON {FilterJSON} _ _.
Arguments ReqSubscriptionID {FilterJSON} _.
Arguments FilterJSONs {FilterJSON} _.

Record ClientCloseMsgJSON : Type := mkClientCloseMsgJSON {
  CloseSubscriptionID : string
}.

Record ClientEventMsgJSON (EventJSON : Type) : Type := mkClientEventMsgJSON {
  MsgEventJSON : EventJSON
}.
Arguments mkClientEventMsgJSON {EventJSON} _.
Arguments MsgEventJSON {EventJSON} _.

Inductive ClientMsgJSON (EventJSON FilterJSON : Type) : Type :=
| IsClientReqMsgJSON (msg : ClientReqMsgJSON FilterJSON)
| IsClientCloseMsgJSON (msg : ClientCloseMsgJSON)
| IsClientEventMsgJSON (msg : ClientEventMsgJSON EventJSON)
| ClientOtherMsgJSON.
Arguments IsClientReqMsgJSON {EventJSON FilterJSON} _.
Arguments IsClientCloseMsgJSON {EventJSON FilterJSON} _.
Arguments IsClientEventMsgJSON {EventJSON FilterJSON} _.
Arguments ClientOtherMsgJSON {EventJSON FilterJSON}.

(** [Event{msg.EventJSON, time.Now()}]. *)
Record Event (EventJSON : Type) : Type := mkEvent {
  EventJSON_of : EventJSON;
  ReceivedAt : Time
}.
Arguments mkEvent {EventJSON} _ _.
Arguments EventJSON_of {EventJSON} _.
Arguments ReceivedAt {EventJSON} _.

(** The frames the reader task puts on the connection's sink.  [V1] builds
    [ServerEventMsg{subID, event.EventJSON}], [V2] passes the whole event
    to [NewServerEventMsg], so the payload type is a parameter. *)
Inductive ServerMsg (P : Type) : Type :=
| ServerEventMsg (SubscriptionID : string) (payload : P)
| ServerEOSEMsg (SubscriptionID : string).
Arguments ServerEventMsg {P} _ _.
Arguments ServerEOSEMsg {P} _.

Definition is_EOSE {P : Type} (m : ServerMsg P) : bool :=
  match m with ServerEOSEMsg _ => true | ServerEventMsg _ _ => false end.

(** ** The collaborators

    Router, cache, codec and signature check are not part of the sources;
    the handlers are embedded over any implementation of them.  State is
    passed explicitly: an operation that can change the router or the cache
    returns the new one. *)
Class Collaborators : Type := {
  EventJSON : Type;
  FilterJSON : Type;
  Filter : Type;
  DB : Type;
  Router : Type;
  NewFiltersFromFilterJSONs : list FilterJSON -> list Filter;
  ParseClientMsgJSON : gostring -> ClientMsgJSON EventJSON FilterJSON + error;
  Verify : EventJSON -> bool * option error;
  ValidCreatedAt : Event EventJSON -> bool;
  Save : Event EventJSON -> DB -> DB;
  FindAll : list Filter -> DB -> list (Event EventJSON);
  Subscribe : string -> string -> list Filter -> Router -> Router * option error;
  Close : string -> string -> Router -> Router * option error;
  Publish : Event EventJSON -> Router -> Router * option error
}.

(** ** The reader task's world and its call trace *)

Section World.
Context `{C : Collaborators}.
Variable P : Type.

Inductive Call : Type :=
| call_Log (msg : string)
| call_AccessLog (msg : gostring)
| call_Metric (name : string)
| call_Parse (strMsg : gostring)
| call_Verify (e : EventJSON)
| call_FindAll (filters : list Filter)
| call_Send (m : ServerMsg P)
| call_Subscribe (connID subID : string) (filters : list Filter)
| call_Close (connID subID : string)
| call_Save (event : Event EventJSON)
| call_Publish (event : Event EventJSON).

Record World : Type := mkWorld {
  db : DB;
  router : Router;
  trace : list Call
}.

(** A computation of the reader task. *)
Definition M (A : Type) : Type := World -> A * World.

Definition ret {A : Type} (a : A) : M A := fun w => (a, w).

Definition bind {A B : Type} (m : M A) (k : A -> M B) : M B :=
  fun w => let (a, w') := m w in k a w'.

Definition emit (c : Call) : M unit :=
  fun w => (tt, mkWorld (db w) (router w) (trace w ++ [c])).

(** [logStderr.Printf], [log.Ctx(ctx).Info()...Msg]. *)
Definition log_Printf (msg : string) : M unit := emit (call_Log msg).

(** [sender <- m]: the frame is queued on the connection's sink. *)
Definition chan_send (m : ServerMsg P) : M unit := emit (call_Send m).

Definition do_Parse (strMsg : gostring)
  : M (ClientMsgJSON EventJSON FilterJSON + error) :=
  fun w => (ParseClientMsgJSON strMsg,
            mkWorld (db w) (router w) (trace w ++ [call_Parse strMsg])).

Definition do_Verify (e : EventJSON) : M (bool * option error) :=
  fun w => (Verify e, mkWorld (db w) (router w) (trace w ++ [call_Verify e])).

Definition do_FindAll (filters : list Filter) : M (list (Event EventJSON)) :=
  fun w => (FindAll filters (db w),
            mkWorld (db w) (router w) (trace w ++ [call_FindAll filters])).

Definition do_Save (event : Event EventJSON) : M unit :=
  fun w => (tt, mkWorld (Save event (db w)) (router w)
                        (trace w ++ [call_Save event])).

Definition do_Subscribe (connID subID : string) (filters : list Filter)
  : M (option error) :=
  fun w => let (r, err) := Subscribe connID subID filters (router w) in
           (err, mkWorld (db w) r
                         (trace w ++ [call_Subscribe connID subID filters])).

Definition do_Close (connID subID : string) : M (option error) :=
  fun w => let (r, err) := Close connID subID (router w) in
           (err, mkWorld (db w) r (trace w ++ [call_Close connID subID])).

Definition do_Publish (event : Event EventJSON) : M (option error) :=
  fun w => let (r, err) := Publish event (router w) in
           (err, mkWorld (db w) r (trace w ++ [call_Publish event])).

(** [for _, x := range xs { body x }]. *)
Fixpoint range {A : Type} (xs : list A) (body : A -> M unit) : M unit :=
  match xs with
  | [] => ret tt
  | x :: xs' => bind (body x) (fun _ => range xs' body)
  end.

(** The frames of a trace, in the order they were queued. *)
Definition sent (t : list Call) : list (ServerMsg P) :=
  flat_map (fun c => match c with call_Send m => [m] | _ => [] end) t.

End World.

Arguments call_Log {C P} _.
Arguments call_AccessLog {C P} _.
Arguments call_Metric {C P} _.
Arguments call_Parse {C P} _.
Arguments call_Verify {C P} _.
Arguments call_FindAll {C P} _.
Arguments call_Send {C P} _.
Arguments call_Subscribe {C P} _ _ _.
Arguments call_Close {C P} _ _.
Arguments call_Save {C P} _.
Arguments call_Publish {C P} _.
Arguments mkWorld {C P} _ _ _.
Arguments db {C P} _.
Arguments router {C P} _.
Arguments trace {C P} _.
Arguments ret {C P A} _ _.
Arguments bind {C P A B} _ _ _.
Arguments emit {C P} _ _.
Arguments log_Printf {C P} _ _.
Arguments chan_send {C P} _ _.
Arguments do_Parse {C P} _ _.
Arguments do_Verify {C P} _ _.
Arguments do_FindAll {C P} _ _.
Arguments do_Save {C P} _ _.
Arguments do_Subscribe {C P} _ _ _ _.
Arguments do_Close {C P} _ _ _.
Arguments do_Publish {C P} _ _.
Arguments range {C P A} _ _ _.
Arguments sent {C P} _.

Declare Scope relay_scope.
Notation "x <- m ;; k" := (bind m (fun x => k))
  (at level 61, m at next level, right associativity) : relay_scope.
Notation "m ;;; k" := (bind m (fun _ => k))
  (at level 61, right associativity) : relay_scope.
Open Scope relay_scope.

(** One turn of the receive loop: what the rate limiter answers, the frame
    the reader is positioned on, and the wall clock. *)
Record Tick : Type := mkTick {
  lim_Wait : option error;
  reader : Reader;
  time_Now : Time
}.

(** [wsReceiver] is a [for] loop without exit other than [return err]: after
    any finite input it is either still in the loop or has returned. *)
Inductive Outcome : Type :=
| Running
| Returned (err : error).

Definition MaxFilterLen : Z := 50.

(** ** V1: the [HandleWebsocket] revision of relay.go *)

Module V1.
Section Handlers.
Context `{C : Collaborators}.

Local Abbreviation M := (M EventJSON).

Definition wsRead (MaxClientMesLen : Z) (wsr : Reader)
  : list byte * option error :=
  let limit := wrap_int (MaxClientMesLen + 1) in
  match NextFrame_err wsr with
  | Some err => ([], Some (fmt_Errorf_w "failed to get next frame: %w" err))
  | None =>
      if OpCode_eqb (hdr_OpCode wsr) OpClose then ([], Some io_EOF)
      else
        let (res, err) := ReadAll_LimitReader wsr limit in
        if len res =? limit
        then (res, Some (fmt_Errorf "websocket message is too long (len=%v): %s"))
        else (res, err)
  end.

Definition serveClientReqMsgJSON (connID : string)
  (msg : ClientReqMsgJSON FilterJSON) : M (option error) :=
  let filters := NewFiltersFromFilterJSONs (FilterJSONs msg) in
  if len filters >? MaxFilterLen + 2
  then ret (Some (fmt_Errorf "filter is too long: %v"))
  else
    events <- do_FindAll filters ;;
    range events (fun event =>
      chan_send (ServerEventMsg (ReqSubscriptionID msg) (EventJSON_of event))) ;;;
    chan_send (ServerEOSEMsg (ReqSubscriptionID msg)) ;;;
    do_Subscribe connID (ReqSubscriptionID msg) filters ;;;
    ret None.

Definition serveClientCloseMsgJSON (connID : string)
  (msg : ClientCloseMsgJSON) : M (option error) :=
  err <- do_Close connID (CloseSubscriptionID msg) ;;
  match err with
  | Some _ => ret (Some (fmt_Errorf "cannot close conn %v"))
  | None => ret None
  end.

Definition serveClientEventMsgJSON (now : Time)
  (msg : ClientEventMsgJSON EventJSON) : M (option error) :=
  r <- do_Verify (MsgEventJSON msg) ;;
  match snd r with
  | Some _ => ret (Some (fmt_Errorf "failed to verify event json: %v"))
  | None =>
      if negb (fst r) then ret (Some (fmt_Errorf "invalid signature: %v"))
      else
        let event := mkEvent (MsgEventJSON msg) now in
        do_Save event ;;;
        err <- do_Publish event ;;
        match err with
        | Some _ => ret (Some (fmt_Errorf "failed to publish event: %v"))
        | None => ret None
        end
  end.

(** The body of the [for] loop: [Some err] when it executes [return err],
    [None] when it reaches the end of the body or a [continue]. *)
Definition wsReceiver_body (MaxClientMesLen : Z) (connID : string) (t : Tick)
  : M (option error) :=
  match lim_Wait t with
  | Some err => ret (Some (fmt_Errorf_w "rate limiter returns error: %w" err))
  | None =>
      let (payload, rerr) := wsRead MaxClientMesLen (reader t) in
      match rerr with
      | Some err => ret (Some (fmt_Errorf_w "receive error: %w" err))
      | None =>
          if negb (utf8_Valid payload)
          then log_Printf "payload is not utf8" ;;; ret None
          else
            let strMsg := string_of_bytes payload in
            parsed <- do_Parse strMsg ;;
            match parsed with
            | inr _ => log_Printf "received invalid msg" ;;; ret None
            | inl jsonMsg =>
                emit (call_AccessLog strMsg) ;;;
                match jsonMsg with
                | IsClientReqMsgJSON msg =>
                    err <- serveClientReqMsgJSON connID msg ;;
                    match err with
                    | Some _ =>
                        log_Printf "failed to serve client req msg" ;;; ret None
                    | None => ret None
                    end
                | IsClientCloseMsgJSON msg =>
                    err <- serveClientCloseMsgJSON connID msg ;;
                    match err with
                    | Some _ =>
                        log_Printf "failed to serve client close msg" ;;; ret None
                    | None => ret None
                    end
                | IsClientEventMsgJSON msg =>
                    err <- serveClientEventMsgJSON (time_Now t) msg ;;
                    match err with
                    | Some _ =>
                        log_Printf "failed to serve client event msg" ;;; ret None
                    | None => ret None
                    end
                | ClientOtherMsgJSON => ret None
                end
            end
      end
  end.

Fixpoint wsReceiver (MaxClientMesLen : Z) (connID : string)
  (input : list Tick) : M Outcome :=
  match input with
  | [] => ret Running
  | t :: rest =>
      r <- wsReceiver_body MaxClientMesLen connID t ;;
      match r with
      | Some err => ret (Returned err)
      | None => wsReceiver MaxClientMesLen connID rest
      end
  end.

End Handlers.
End V1.

(** ** V2: the [RelayHandler] revision of relay.go *)

Module V2.
Section Handlers.
Context `{C : Collaborators}.

Local Abbreviation M := (M (Event EventJSON)).

(** Modelled from the spec: [NewEvent] is not in the sources; the event pairs
    the received JSON with the arrival time, as the struct literal of the
    earlier revision does. *)
Definition NewEvent (e : EventJSON) (now : Time) : Event EventJSON :=
  mkEvent e now.

(** Modelled from the spec: [NewServerEventMsg] and [NewServerEOSEMsg] are
    not in the sources; the spec gives the outbound sum type
    [EventFrame{subID, event} | EOSEFrame{subID}]. *)
Definition NewServerEventMsg (subID : string) (event : Event EventJSON)
  : ServerMsg (Event EventJSON) := ServerEventMsg subID event.

Definition NewServerEOSEMsg (subID : string) : ServerMsg (Event EventJSON) :=
  ServerEOSEMsg subID.

Definition wsRead (MaxClientMesLen : Z) (wsr : Reader)
  : list byte * option error :=
  let limit := wrap_int (MaxClientMesLen + 1) in
  match NextFrame_err wsr with
  | Some err => ([], Some (fmt_Errorf_w "failed to get next frame: %w" err))
  | None =>
      if OpCode_eqb (hdr_OpCode wsr) OpClose then ([], Some io_EOF)
      else
        let (res, err) := ReadAll_LimitReader wsr limit in
        if len res =? limit
        then (res, Some (fmt_Errorf "websocket message is too long (len=%v): %s"))
        else (res, err)
  end.

(** [connID] is [GetCtxConnID(r.HTTPReq.Context())]. *)
Definition serveClientReqMsgJSON (connID : string)
  (msg : ClientReqMsgJSON FilterJSON) : M (option error) :=
  let filters := NewFiltersFromFilterJSONs (FilterJSONs msg) in
  if len filters >? MaxFilterLen + 2
  then ret (Some (fmt_Errorf "filter is too long: %v"))
  else
    events <- do_FindAll filters ;;
    range events (fun event =>
      chan_send (NewServerEventMsg (ReqSubscriptionID msg) event)) ;;;
    chan_send (NewServerEOSEMsg (ReqSubscriptionID msg)) ;;;
    err <- do_Subscribe connID (ReqSubscriptionID msg) filters ;;
    match err with
    | Some _ => ret None
    | None => ret None
    end.

Definition serveClientCloseMsgJSON (connID : string)
  (msg : ClientCloseMsgJSON) : M (option error) :=
  err <- do_Close connID (CloseSubscriptionID msg) ;;
  match err with
  | Some _ => ret (Some (fmt_Errorf "cannot close conn %v"))
  | None => ret None
  end.

Definition serveClientEventMsgJSON (now : Time)
  (msg : ClientEventMsgJSON EventJSON) : M (option error) :=
  r <- do_Verify (MsgEventJSON msg) ;;
  match snd r with
  | Some _ => ret (Some (fmt_Errorf "failed to verify event json: %v"))
  | None =>
      if negb (fst r) then ret (Some (fmt_Errorf "invalid signature: %v"))
      else
        emit (call_Metric "promEventCounter") ;;;
        let event := NewEvent (MsgEventJSON msg) now in
        if negb (ValidCreatedAt event)
        then ret (Some (fmt_Errorf "invalid created_at: %v"))
        else
          do_Save event ;;;
          err <- do_Publish event ;;
          match err with
          | Some _ => ret (Some (fmt_Errorf "failed to publish event: %v"))
          | None => ret None
          end
  end.

Definition wsReceiver_body (MaxClientMesLen : Z) (connID : string) (t : Tick)
  : M (option error) :=
  match lim_Wait t with
  | Some err => ret (Some (fmt_Errorf_w "rate limiter returns error: %w" err))
  | None =>
      let (payload, rerr) := wsRead MaxClientMesLen (reader t) in
      match rerr with
      | Some err => ret (Some (fmt_Errorf_w "receive error: %w" err))
      | None =>
          if negb (utf8_Valid payload)
          then log_Printf "payload is not utf8" ;;; ret None
          else
            let strMsg := string_of_bytes payload in
            parsed <- do_Parse strMsg ;;
            match parsed with
            | inr _ => log_Printf "received invalid client msg" ;;; ret None
            | inl jsonMsg =>
                log_Printf "receive client msg" ;;;
                emit (call_Metric "promWSRecvCounter") ;;;
                match jsonMsg with
                | IsClientReqMsgJSON msg =>
                    err <- serveClientReqMsgJSON connID msg ;;
                    match err with
                    | Some _ =>
                        log_Printf "failed to serve client req msg" ;;; ret None
                    | None => ret None
                    end
                | IsClientCloseMsgJSON msg =>
                    err <- serveClientCloseMsgJSON connID msg ;;
                    match err with
                    | Some _ =>
                        log_Printf "failed to serve client close msg" ;;; ret None
                    | None => ret None
                    end
                | IsClientEventMsgJSON msg =>
                    err <- serveClientEventMsgJSON (time_Now t) msg ;;
                    match err with
                    | Some _ =>
                        log_Printf "failed to serve client event msg" ;;; ret None
                    | None => ret None
                    end
                | ClientOtherMsgJSON => ret None
                end
            end
      end
  end.

Fixpoint wsReceiver (MaxClientMesLen : Z) (connID : string)
  (input : list Tick) : M Outcome :=
  match input with
  | [] => ret Running
  | t :: rest =>
      r <- wsReceiver_body MaxClientMesLen connID t ;;
      match r with
      | Some err => ret (Returned err)
      | None => wsReceiver MaxClientMesLen connID rest
      end
  end.

End Handlers.
End V2.

(** ** main.go *)

(** [Main0]: the revision of main.go without flags.  [Run] builds the cache
    with [NewDB(5)]. *)
Module Main0.

Definition Run_db {DB : Type} (NewDB : Z -> DB) : DB := NewDB 5.

End Main0.

(** [Main1]: the revision of main.go with flags.  [Run] builds the cache with
    [NewDB( *DBSize, DefaultFilters)]; [V1.wsRead] reads [*MaxClientMesLen]. *)
Module Main1.

Definition DefaultDBSize : Z := 10000.
Definition DefaultClientMsgLen : Z := 1048576.

Definition DBSize (args : cmdline) : Z := flag_Int "db" DefaultDBSize args.

Definition MaxClientMesLen (args : cmdline) : Z :=
  flag_Int "msglen" DefaultClientMsgLen args.

Definition Run_db {DB Filters : Type} (NewDB : Z -> Filters -> DB)
  (DefaultFilters : Filters) (args : cmdline) : DB :=
  NewDB (DBSize args) DefaultFilters.

(** The command line with every setting of flag [name] removed. *)
Definition without_flag (name : string) (args : cmdline) : cmdline :=
  filter (fun kv => negb (String.eqb (fst kv) name)) args.

End Main1.

(** ** A small relay to run the handlers on

    Events carry a kind and a flag for the outcome of the signature check;
    a filter is a kind; the cache is the list of saved events, oldest first;
    the router holds at most one subscription per connection. *)
Module Demo.

Record EventJSON : Type := mkEventJSON {
  id : string;
  created_at : Z;
  kind : Z;
  sig_ok : bool;
  well_formed : bool
}.

Definition Verify (e : EventJSON) : bool * option error :=
  if well_formed e then (sig_ok e, None)
  else (false, Some (external "malformed signature")).

(** Modelled from the spec: [ValidCreatedAt] is not in the sources; the spec
    recommends rejecting events more than 10 minutes in the future. *)
Definition ValidCreatedAt (ev : Event EventJSON) : bool :=
  created_at (EventJSON_of ev) <=? ReceivedAt ev + 600.

Definition DB : Type := list (Event EventJSON).
Definition Router : Type := list (string * string).

Definition Save (ev : Event EventJSON) (d : DB) : DB := d ++ [ev].

Definition FindAll (filters : list Z) (d : DB) : list (Event EventJSON) :=
  filter (fun ev => existsb (Z.eqb (kind (EventJSON_of ev))) filters) d.

Definition Subscribe (connID subID : string) (filters : list Z) (r : Router)
  : Router * option error :=
  if existsb (fun s => String.eqb (fst s) connID) r
  then (r, Some (external "too many subscriptions"))
  else ((connID, subID) :: r, None).

Definition Close (connID subID : string) (r : Router)
  : Router * option error :=
  if existsb (fun s => String.eqb (fst s) connID && String.eqb (snd s) subID) r
  then (filter (fun s => negb (String.eqb (fst s) connID
                               && String.eqb (snd s) subID)) r, None)
  else (r, Some (external "subscription not found")).

Definition Publish (ev : Event EventJSON) (r : Router)
  : Router * option error := (r, None).

Definition ev_ok : EventJSON := mkEventJSON "e1" 100 1 true true.
Definition ev_badsig : EventJSON := mkEventJSON "e2" 100 1 false true.
Definition ev_malformed : EventJSON := mkEventJSON "e3" 100 1 true false.
Definition ev_future : EventJSON := mkEventJSON "e4" 1000000 1 true true.

Definition req (n : nat) : ClientReqMsgJSON Z :=
  mkClientReqMsgJSON "a" (repeat 1 n).

(** A toy codec: [R] followed by [n] more bytes is a REQ with [n + 1]
    filters for kind 1 under subscription [a], [C] closes it, [E1], [E0],
    [EM] and [EF] publish the four events above. *)
Definition ParseClientMsgJSON (s : gostring)
  : ClientMsgJSON EventJSON Z + error :=
  match s with
  | x52 :: more => inl (IsClientReqMsgJSON (req (S (List.length more))))
  | [x43] => inl (IsClientCloseMsgJSON (mkClientCloseMsgJSON "a"))
  | [x45; x31] => inl (IsClientEventMsgJSON (mkClientEventMsgJSON ev_ok))
  | [x45; x30] => inl (IsClientEventMsgJSON (mkClientEventMsgJSON ev_badsig))
  | [x45; x4d] => inl (IsClientEventMsgJSON (mkClientEventMsgJSON ev_malformed))
  | [x45; x46] => inl (IsClientEventMsgJSON (mkClientEventMsgJSON ev_future))
  | _ => inr (external "not a client message")
  end.

Definition relay : Collaborators :=
  Build_Collaborators EventJSON Z Z DB Router
    (fun fjs => fjs) ParseClientMsgJSON Verify ValidCreatedAt
    Save FindAll Subscribe Close Publish.

Definition text (payload : list byte) : Reader :=
  mkReader None OpText payload None.

Definition tick (payload : list byte) : Tick := mkTick None (text payload) 200.

(** A cache holding a kind-1, a kind-2 and another kind-1 event; a router
    where connection [c1] already holds a subscription. *)
Definition e1 : Event EventJSON := mkEvent (mkEventJSON "E1" 10 1 true true) 11.
Definition e2 : Event EventJSON := mkEvent (mkEventJSON "E2" 20 2 true true) 21.
Definition e3 : Event EventJSON := mkEvent (mkEventJSON "E3" 30 1 true true) 31.

Definition world0 (P : Type) : World (C := relay) P :=
  mkWorld (C := relay) [e1; e2; e3] [("c1"%string, "x"%string)] [].

End Demo.

(** ** Vocabulary of the statements *)

Section Vocabulary.
Context `{C : Collaborators}.

(** The frame of turn [t] reaches the dispatch as [jsonMsg]: the limiter let
    it through, [read] (the result of [wsRead] on it) is [payload] without
    error, the payload is valid UTF-8 and parses to [jsonMsg]. *)
Definition arrives (t : Tick) (read : list byte * option error)
  (payload : list byte) (jsonMsg : ClientMsgJSON EventJSON FilterJSON) : Prop :=
  lim_Wait t = None /\ read = (payload, None) /\ utf8_Valid payload = true
  /\ ParseClientMsgJSON (string_of_bytes payload) = inl jsonMsg.

(** The calls of an accepted REQ, in order: the snapshot, one send per replay
    frame, the EOSE frame, then the registration with the router. *)
Definition req_calls {P : Type} (connID subID : string)
  (filters : list Filter) (replay : list (ServerMsg P)) : list (Call P) :=
  call_FindAll filters :: map call_Send replay
  ++ [call_Send (ServerEOSEMsg subID); call_Subscribe connID subID filters].

Definition replay_V1 (subID : string) (events : list (Event EventJSON))
  : list (ServerMsg EventJSON) :=
  map (fun ev => ServerEventMsg subID (EventJSON_of ev)) events.

Definition replay_V2 (subID : string) (events : list (Event EventJSON))
  : list (ServerMsg (Event EventJSON)) :=
  map (fun ev => ServerEventMsg subID ev) events.

(** [ok, err := Verify()] lets the event through: [err == nil] and [ok]. *)
Definition passes (r : bool * option error) : bool :=
  match snd r with
  | Some _ => false
  | None => fst r
  end.

(** The world after some calls that left the cache and the router alone. *)
Definition logged {P : Type} (w : World P) (calls : list (Call P)) : World P :=
  mkWorld (db w) (router w) (trace w ++ calls).

End Vocabulary.

(** ** The rest of the connection: sentinel errors, the writer task, the
    connection handler and the HTTP handler *)

(** The sentinel errors the relay tests with [errors.Is].  A sentinel is a
    leaf of the [%w] chain, recognised by its identity. *)
Module Sentinel.

Definition net_ErrClosed : error := external "use of closed network connection".
Definition syscall_ECONNRESET : error := external "connection reset by peer".

(** [errors.Is(err, target)] for a sentinel [target]: some error of the [%w]
    chain of [err] is [target]. *)
Fixpoint errors_Is (err target : error) : bool :=
  match err with
  | io_EOF => match target with io_EOF => true | _ => false end
  | external a =>
      match target with external b => String.eqb a b | _ => false end
  | fmt_Errorf _ => false
  | fmt_Errorf_w _ err' => errors_Is err' target
  end.

End Sentinel.

Import Sentinel.

(** What the writer task observes and does.  Each turn of its [select]
    either finds the context done or receives a frame from the sink; the
    write of that frame to the connection succeeds or fails. *)
Module SenderIO.

Inductive Selected (P : Type) : Type :=
| ctx_Done
| received (msg : ServerMsg P) (WriteServerText_err : option error).
Arguments ctx_Done {P}.
Arguments received {P} _ _.

Inductive Call : Type :=
| call_Log (msg : string)
| call_Metric (name : string)
| call_WriteServerText (jsonMsg : list byte)
| call_AccessLog (jsonMsg : list byte)
| call_WriteClose.

(** The writer is blocked in [select] once its input is used up, or it has
    returned. *)
Inductive Outcome : Type :=
| Blocked
| Returned (err : option error).

Definition is_write (c : Call) : bool :=
  match c with call_WriteServerText _ => true | _ => false end.

Definition is_close (c : Call) : bool :=
  match c with call_WriteClose => true | _ => false end.

(** The payloads of the text frames written, in order. *)
Definition written (calls : list Call) : list (list byte) :=
  flat_map (fun c => match c with
                     | call_WriteServerText j => [j]
                     | _ => []
                     end) calls.

(** The frames the sink handed over, in order. *)
Definition offered {P : Type} (input : list (Selected P))
  : list (ServerMsg P) :=
  flat_map (fun s => match s with
                     | received msg _ => [msg]
                     | ctx_Done => []
                     end) input.

Definition marshals {P : Type}
  (MarshalJSON : ServerMsg P -> list byte * option error) (msg : ServerMsg P)
  : bool :=
  match snd (MarshalJSON msg) with Some _ => false | None => true end.

(** The bytes of a frame: the first result of [MarshalJSON]. *)
Definition json_of {P : Type}
  (MarshalJSON : ServerMsg P -> list byte * option error) (msg : ServerMsg P)
  : list byte := fst (MarshalJSON msg).

(** What the loop of [wsSender] can return: [nil], or the wrapped error of a
    write of [input] that failed for another reason than a closed
    connection. *)
Definition loop_result {P : Type} (input : list (Selected P))
  (r : option error) : Prop :=
  r = None
  \/ exists msg e,
      In (received msg (Some e)) input
      /\ errors_Is e net_ErrClosed = false
      /\ r = Some (fmt_Errorf_w "failed to write server text: %w" e).

(** The deferred function of [wsSender]: it writes the close frame and, when
    that fails for another reason than a closed connection, replaces the
    result. *)
Definition deferred_close (Write_err : option error) (err : option error)
  : option error :=
  match Write_err with
  | Some e =>
      if errors_Is e net_ErrClosed then err
      else Some (fmt_Errorf_w "failed to send close frame: %w" e)
  | None => err
  end.

End SenderIO.

Module V1_Sender.
Import SenderIO.
Section WithMarshal.
Variable P : Type.
(** [msg.MarshalJSON()], not part of the sources. *)
Variable MarshalJSON : ServerMsg P -> list byte * option error.

(** The [for] loop: the calls made, and [Some err] when it executes a
    [return]. *)
Fixpoint wsSender_loop (input : list (Selected P))
  : list Call * option (option error) :=
  match input with
  | [] => ([], None)
  | ctx_Done :: _ => ([], Some None)
  | received msg werr :: rest =>
      let (jsonMsg, merr) := MarshalJSON msg in
      let logged :=
        match merr with
        | Some _ => [call_Log "failed to marshal server msg"]
        | None => []
        end in
      match werr with
      | Some err =>
          (logged ++ [call_WriteServerText jsonMsg],
           Some (if errors_Is err net_ErrClosed then None
                 else Some (fmt_Errorf_w "failed to write server text: %w" err)))
      | None =>
          let (calls, r) := wsSender_loop rest in
          (logged ++ [call_WriteServerText jsonMsg; call_AccessLog jsonMsg]
           ++ calls, r)
      end
  end.

Definition wsSender (input : list (Selected P)) (close_err : option error)
  : list Call * Outcome :=
  let (calls, r) := wsSender_loop input in
  match r with
  | None => (calls, Blocked)
  | Some err => (calls ++ [call_WriteClose],
                 Returned (deferred_close close_err err))
  end.

End WithMarshal.
End V1_Sender.

Module V2_Sender.
Import SenderIO.
Section WithMarshal.
Variable P : Type.
Variable MarshalJSON : ServerMsg P -> list byte * option error.

Fixpoint wsSender_loop (input : list (Selected P))
  : list Call * option (option error) :=
  match input with
  | [] => ([], None)
  | ctx_Done :: _ => ([], Some None)
  | received msg werr :: rest =>
      let (jsonMsg, merr) := MarshalJSON msg in
      match merr with
      | Some _ =>
          let (calls, r) := wsSender_loop rest in
          (call_Metric "promWSSendCounter"
           :: call_Log "failed to marshal server msg" :: calls, r)
      | None =>
          match werr with
          | Some err =>
              ([call_Metric "promWSSendCounter"; call_WriteServerText jsonMsg],
               Some (if errors_Is err net_ErrClosed then None
                     else Some (fmt_Errorf_w "failed to write server text: %w"
                                  err)))
          | None =>
              let (calls, r) := wsSender_loop rest in
              (call_Metric "promWSSendCounter"
               :: call_WriteServerText jsonMsg
               :: call_Log "send server msg" :: calls, r)
          end
      end
  end.

Definition wsSender (input : list (Selected P)) (close_err : option error)
  : list Call * Outcome :=
  let (calls, r) := wsSender_loop input in
  match r with
  | None => (calls, Blocked)
  | Some err => (calls ++ [call_WriteClose],
                 Returned (deferred_close close_err err))
  end.

End WithMarshal.
End V2_Sender.

(** The value [HandleWebsocket] ([V1]) and [Serve] ([V2]) return, given what
    they receive first on [errCh]: the result of whichever of the two tasks
    returns first. *)
Module Conn.

Definition HandleWebsocket (first : option error) : option error :=
  match first with
  | Some err =>
      if errors_Is err io_EOF then None
      else Some (fmt_Errorf_w "handle websocket error: %w" err)
  | None => None
  end.

Definition Serve (first : option error) : option error :=
  match first with
  | Some err =>
      if errors_Is err io_EOF then None
      else if errors_Is err syscall_ECONNRESET then None
      else Some (fmt_Errorf_w "handle websocket error: %w" err)
  | None => None
  end.

(** What reaches [errCh] from the reader task. *)
Definition from_receiver (o : Outcome) : option (option error) :=
  match o with
  | Running => None
  | Returned err => Some (Some err)
  end.

End Conn.

(** The HTTP handlers: the function [Run] registers on ["/"] in the two
    revisions of main.go, and [RelayAccessHandlerFunc].  A request is what
    the handler reads of it and what its callees answer. *)
Module Http.

Inductive Call : Type :=
| call_Log (msg : string)
| call_HandleNip11
| call_UpgradeHTTP
| call_HandleWebsocket
| call_conn_Close.

Record Request : Type := mkRequest {
  Accept : string;
  HandleNip11_err : option error;
  UpgradeHTTP_err : option error;
  HandleWebsocket_err : option error
}.

Definition is_conn_Close (c : Call) : bool :=
  match c with call_conn_Close => true | _ => false end.

Definition is_HandleWebsocket (c : Call) : bool :=
  match c with call_HandleWebsocket => true | _ => false end.

Definition wants_nip11 (r : Request) : bool :=
  String.eqb (Accept r) "application/nostr+json".

Definition upgrades (r : Request) : bool :=
  match UpgradeHTTP_err r with Some _ => false | None => true end.

(** The connection was served and then closed: [conn.Close] is the last call
    and the only one of its kind, after the one call of [HandleWebsocket]. *)
Definition served_then_closed (calls : list Call) : Prop :=
  exists before,
    calls = before ++ [call_conn_Close]
    /\ filter is_conn_Close before = []
    /\ filter is_HandleWebsocket before = [call_HandleWebsocket].

Definition never_served (calls : list Call) : Prop :=
  filter is_conn_Close calls = [] /\ filter is_HandleWebsocket calls = [].

(** main.go without flags. *)
Definition Main0_handler (r : Request) : list Call :=
  call_UpgradeHTTP ::
  match UpgradeHTTP_err r with
  | Some _ => [call_Log "failed to upgrade http"]
  | None =>
      call_HandleWebsocket ::
      match HandleWebsocket_err r with
      | Some _ => [call_Log "websocket error"]
      | None => []
      end ++ [call_conn_Close]
  end.

(** main.go with flags. *)
Definition Main1_handler (r : Request) : list Call :=
  if String.eqb (Accept r) "application/nostr+json"
  then
    call_HandleNip11 ::
    match HandleNip11_err r with
    | Some _ => [call_Log "failed to serve nip11"]
    | None => []
    end
  else
    call_UpgradeHTTP ::
    match UpgradeHTTP_err r with
    | Some _ => [call_Log "failed to upgrade http"]
    | None =>
        call_Log "connect websocket" :: call_HandleWebsocket ::
        match HandleWebsocket_err r with
        | Some _ => [call_Log "websocket error"]
        | None => []
        end ++ [call_Log "disconnect websocket"; call_conn_Close]
    end.

(** [RelayAccessHandlerFunc]; [call_HandleWebsocket] is the call of
    [Serve]. *)
Definition RelayAccessHandlerFunc (r : Request) : list Call :=
  call_UpgradeHTTP ::
  match UpgradeHTTP_err r with
  | Some _ => [call_Log "failed to upgrade HTTP"]
  | None =>
      call_Log "connect websocket" :: call_HandleWebsocket ::
      match HandleWebsocket_err r with
      | Some _ => [call_Log "websocket error"]
      | None => []
      end ++ [call_Log "disconnect websocket"; call_conn_Close]
  end.

End Http.

(** ** Vocabulary of the statements on whole runs *)

Section RunVocabulary.
Context `{C : Collaborators}.

(** The calls a run added to the trace. *)
Definition new_calls {P : Type} (w w' : World P) : list (Call P) :=
  skipn (List.length (trace w)) (trace w').

Definition SubscriptionID_of {P : Type} (m : ServerMsg P) : string :=
  match m with
  | ServerEventMsg subID _ => subID
  | ServerEOSEMsg subID => subID
  end.

(** Call [c] is accounted for by turn [t], whose frame [wsRead] answered
    with [read]: what was parsed is the payload read, what was saved or
    published is the verified event of the EVENT message it parsed to, what
    was looked up, sent or subscribed belongs to the REQ message it parsed
    to, what was closed is the subscription of its CLOSE message.  [extra]
    is the further check an event passes before [Save] (none in [V1],
    [ValidCreatedAt] in [V2]). *)
Definition accounts_for {P : Type} (extra : Event EventJSON -> bool)
  (connID : string) (t : Tick) (read : list byte * option error)
  (c : Call P) : Prop :=
  match c with
  | call_Log _ | call_Metric _ => True
  | call_Parse s | call_AccessLog s =>
      lim_Wait t = None /\ read = (s, None) /\ utf8_Valid s = true
  | call_Verify e =>
      exists payload msg,
        arrives t read payload (IsClientEventMsgJSON msg)
        /\ e = MsgEventJSON msg
  | call_Save ev | call_Publish ev =>
      exists payload msg,
        arrives t read payload (IsClientEventMsgJSON msg)
        /\ ev = mkEvent (MsgEventJSON msg) (time_Now t)
        /\ Verify (MsgEventJSON msg) = (true, None)
        /\ extra ev = true
  | call_FindAll filters =>
      exists payload msg,
        arrives t read payload (IsClientReqMsgJSON msg)
        /\ filters = NewFiltersFromFilterJSONs (FilterJSONs msg)
        /\ len filters <= MaxFilterLen + 2
  | call_Send m =>
      exists payload msg,
        arrives t read payload (IsClientReqMsgJSON msg)
        /\ SubscriptionID_of m = ReqSubscriptionID msg
        /\ len (NewFiltersFromFilterJSONs (FilterJSONs msg))
           <= MaxFilterLen + 2
  | call_Subscribe connID' subID filters =>
      exists payload msg,
        arrives t read payload (IsClientReqMsgJSON msg)
        /\ connID' = connID /\ subID = ReqSubscriptionID msg
        /\ filters = NewFiltersFromFilterJSONs (FilterJSONs msg)
        /\ len filters <= MaxFilterLen + 2
  | call_Close connID' subID =>
      exists payload msg,
        arrives t read payload (IsClientCloseMsgJSON msg)
        /\ connID' = connID /\ subID = CloseSubscriptionID msg
  end.

Definition no_extra_check (ev : Event EventJSON) : bool := true.

(** Some turn of [input] accounts for the call. *)
Definition accounted_V1 (Max : Z) (connID : string) (input : list Tick)
  (c : Call EventJSON) : Prop :=
  exists t, In t input
    /\ accounts_for no_extra_check connID t (V1.wsRead Max (reader t)) c.

Definition accounted_V2 (Max : Z) (connID : string) (input : list Tick)
  (c : Call (Event EventJSON)) : Prop :=
  exists t, In t input
    /\ accounts_for ValidCreatedAt connID t (V2.wsRead Max (reader t)) c.

End RunVocabulary.

(** The toy relay with a router whose [Publish] fails for events of kind 7
    (a torn-down sink). *)
Module DemoTornDown.

Definition Publish (ev : Event Demo.EventJSON) (r : Demo.Router)
  : Demo.Router * option error :=
  if Demo.kind (EventJSON_of ev) =? 7
  then (r, Some (external "sink is gone"))
  else (r, None).

Definition relay : Collaborators :=
  Build_Collaborators Demo.EventJSON Z Z Demo.DB Demo.Router
    (fun fjs => fjs) Demo.ParseClientMsgJSON Demo.Verify Demo.ValidCreatedAt
    Demo.Save Demo.FindAll Demo.Subscribe Demo.Close Publish.

Definition ev7 : Demo.EventJSON := Demo.mkEventJSON "e7" 100 7 true true.

Definition world0 (P : Type) : World (C := relay) P :=
  mkWorld (C := relay) [Demo.e1] [] [].

End DemoTornDown.

(** A marshaller for the toy relay: the subscription id as bytes, and a
    failure for the subscription [bad]. *)
Module DemoSender.

Definition MarshalJSON (m : ServerMsg Z) : list byte * option error :=
  match m with
  | ServerEventMsg subID _ =>
      if String.eqb subID "bad" then ([], Some (external "cannot marshal"))
      else (x45 :: list_byte_of_string subID, None)
  | ServerEOSEMsg subID => (x4f :: list_byte_of_string subID, None)
  end.

End DemoSender.

(** ** The embedding at work *)

Example utf8_Valid_euro : utf8_Valid [xe2; x82; xac] = true.
Proof. reflexivity. Qed.

Example utf8_Valid_overlong : utf8_Valid [xe0; x80; x80] = false.
Proof. reflexivity. Qed.

Example utf8_Valid_surrogate : utf8_Valid [xed; xa0; x80] = false.
Proof. reflexivity. Qed.

Example utf8_Valid_truncated : utf8_Valid [x52; xc3] = false.
Proof. reflexivity. Qed.

Example wsRead_close_frame :
  V1.wsRead 1048576 (mkReader None OpClose [x03; xe8] None) = ([], Some io_EOF).
Proof. reflexivity. Qed.

Example wsRead_at_the_maximum :
  V2.wsRead 2 (Demo.text [x45; x31]) = ([x45; x31], None).
Proof. reflexivity. Qed.

Example wsRead_one_over_the_maximum :
  V2.wsRead 2 (Demo.text [x45; x31; x0a])
  = ([x45; x31; x0a],
     Some (fmt_Errorf "websocket message is too long (len=%v): %s")).
Proof. reflexivity. Qed.

Example DBSize_last_setting_wins :
  Main1.DBSize [("db"%string, 7); ("msglen"%string, 3); ("db"%string, 9)] = 9.
Proof. reflexivity. Qed.

(** Scenario S1 of the spec on the toy relay: the replay of a REQ for kind 1
    over a cache holding kinds 1, 2, 1. *)
Example replay_scenario :
  sent (trace (snd (V2.serveClientReqMsgJSON (C := Demo.relay) "c2"
                      (Demo.req 1) (Demo.world0 _))))
  = [ServerEventMsg "a" Demo.e1; ServerEventMsg "a" Demo.e3; ServerEOSEMsg "a"].
Proof. reflexivity. Qed.

(** ** Proof steps for the receive loops *)

(** Runs one turn of a receive loop on a frame that [arrives]. *)
Ltac enter_body Harr :=
  let Hlim := fresh "Hlim" in
  let Hread := fresh "Hread" in
  let Hutf := fresh "Hutf" in
  let Hparse := fresh "Hparse" in
  destruct Harr as (Hlim & Hread & Hutf & Hparse);
  cbn [V1.wsReceiver V2.wsReceiver]; unfold bind at 1;
  unfold V1.wsReceiver_body, V2.wsReceiver_body;
  rewrite Hlim, Hread, Hutf; cbn [negb];
  unfold bind at 1; unfold do_Parse at 1; rewrite Hparse;
  unfold bind, log_Printf, emit, ret; cbn [db router trace].

(** Closes a goal that equates two runs which differ by bookkeeping only. *)
Ltac finish_body :=
  unfold bind, log_Printf, emit, ret, logged, string_of_bytes;
  cbn [db router trace fst snd];
  repeat rewrite <- app_assoc; reflexivity.

(** ** Lemmas on the monad and the loops *)

Section Lemmas.
Context `{C : Collaborators}.

Lemma gtb_false (a b : Z) : a <= b -> (a >? b) = false.
Proof. intro H. rewrite Z.gtb_ltb. apply Z.ltb_ge. exact H. Qed.

Lemma gtb_true (a b : Z) : b < a -> (a >? b) = true.
Proof. intro H. rewrite Z.gtb_ltb. apply Z.ltb_lt. exact H. Qed.

Lemma passes_iff (r : bool * option error) :
  passes r = true <-> r = (true, None).
Proof.
  destruct r as [[|] [e |]]; unfold passes; cbn [fst snd];
    split; intro H; try reflexivity; discriminate H.
Qed.

Lemma world_eta (P : Type) (w : World P) :
  mkWorld (db w) (router w) (trace w) = w.
Proof. destruct w; reflexivity. Qed.

Lemma logged_nil (P : Type) (w : World P) : logged w [] = w.
Proof. unfold logged. rewrite app_nil_r. apply world_eta. Qed.

Lemma range_chan_send (P A : Type) (f : A -> ServerMsg P) (xs : list A)
  (w : World P) :
  range xs (fun x => chan_send (f x)) w
  = (tt, logged w (map call_Send (map f xs))).
Proof.
  revert w. induction xs as [| x xs IH]; intro w; cbn [range map].
  - unfold ret. now rewrite logged_nil.
  - unfold bind. cbn [chan_send emit]. unfold chan_send at 1, emit.
    rewrite IH. unfold logged. cbn [db router trace].
    now rewrite <- app_assoc.
Qed.

Lemma sent_app (P : Type) (t1 t2 : list (Call P)) :
  sent (t1 ++ t2) = sent t1 ++ sent t2.
Proof. unfold sent. apply flat_map_app. Qed.

Lemma sent_map_Send (P : Type) (ms : list (ServerMsg P)) :
  sent (map call_Send ms) = ms.
Proof.
  induction ms as [| m ms IH]; [reflexivity |].
  cbn [map]. change (sent (call_Send m :: map call_Send ms))
    with (m :: sent (map call_Send ms)). now rewrite IH.
Qed.

Lemma sent_req_calls (P : Type) (connID subID : string)
  (filters : list Filter) (replay : list (ServerMsg P)) :
  sent (req_calls connID subID filters replay)
  = replay ++ [ServerEOSEMsg subID].
Proof.
  unfold req_calls.
  change (sent (call_FindAll filters :: ?t)) with (sent t).
  change (sent (map call_Send replay ++
                [call_Send (ServerEOSEMsg subID);
                 call_Subscribe connID subID filters])
          = replay ++ [ServerEOSEMsg subID]).
  rewrite sent_app, sent_map_Send. reflexivity.
Qed.

Lemma no_EOSE_in_events (P A : Type) (subID : string) (f : A -> P)
  (xs : list A) :
  filter is_EOSE (map (fun x => ServerEventMsg subID (f x)) xs) = [].
Proof. induction xs as [| x xs IH]; [reflexivity | exact IH]. Qed.

Lemma V2_wsRead_eq : V2.wsRead = V1.wsRead.
Proof. reflexivity. Qed.

Lemma V1_req_accepted (connID : string) (msg : ClientReqMsgJSON FilterJSON)
  (w : World EventJSON) :
  let filters := NewFiltersFromFilterJSONs (FilterJSONs msg) in
  let subID := ReqSubscriptionID msg in
  len filters <= MaxFilterLen + 2 ->
  V1.serveClientReqMsgJSON connID msg w
  = (None,
     mkWorld (db w) (fst (Subscribe connID subID filters (router w)))
       (trace w ++ req_calls connID subID filters
                     (replay_V1 subID (FindAll filters (db w))))).
Proof.
  intros filters subID Hlen. unfold V1.serveClientReqMsgJSON.
  fold filters. fold subID.
  replace (len filters >? MaxFilterLen + 2) with false
    by (symmetry; apply gtb_false; exact Hlen).
  unfold bind at 1. unfold do_FindAll at 1.
  unfold bind at 1.
  rewrite (range_chan_send _ _
             (fun event => ServerEventMsg subID (EventJSON_of event))).
  unfold bind, chan_send, emit, do_Subscribe, ret, logged, req_calls, replay_V1.
  cbn [db router trace].
  destruct (Subscribe connID subID filters (router w)) as [r err].
  cbn [fst]. f_equal. f_equal.
  repeat rewrite <- app_assoc. reflexivity.
Qed.

Lemma V2_req_accepted (connID : string) (msg : ClientReqMsgJSON FilterJSON)
  (w : World (Event EventJSON)) :
  let filters := NewFiltersFromFilterJSONs (FilterJSONs msg) in
  let subID := ReqSubscriptionID msg in
  len filters <= MaxFilterLen + 2 ->
  V2.serveClientReqMsgJSON connID msg w
  = (None,
     mkWorld (db w) (fst (Subscribe connID subID filters (router w)))
       (trace w ++ req_calls connID subID filters
                     (replay_V2 subID (FindAll filters (db w))))).
Proof.
  intros filters subID Hlen. unfold V2.serveClientReqMsgJSON.
  fold filters. fold subID.
  replace (len filters >? MaxFilterLen + 2) with false
    by (symmetry; apply gtb_false; exact Hlen).
  unfold bind at 1. unfold do_FindAll at 1.
  unfold bind at 1. unfold V2.NewServerEventMsg, V2.NewServerEOSEMsg.
  rewrite (range_chan_send _ _ (fun event => ServerEventMsg subID event)).
  unfold bind, chan_send, emit, do_Subscribe, ret, logged, req_calls, replay_V2.
  cbn [db router trace].
  destruct (Subscribe connID subID filters (router w)) as [r [e |]];
    cbn [fst]; f_equal; f_equal; repeat rewrite <- app_assoc; reflexivity.
Qed.

End Lemmas.

Section RejectedReq.
Context `{C : Collaborators}.

Lemma V1_req_rejected (connID : string) (msg : ClientReqMsgJSON FilterJSON)
  (w : World EventJSON) :
  MaxFilterLen + 2 < len (NewFiltersFromFilterJSONs (FilterJSONs msg)) ->
  V1.serveClientReqMsgJSON connID msg w
  = (Some (fmt_Errorf "filter is too long: %v"), w).
Proof.
  intro H. unfold V1.serveClientReqMsgJSON.
  now rewrite (gtb_true _ _ H).
Qed.

Lemma V2_req_rejected (connID : string) (msg : ClientReqMsgJSON FilterJSON)
  (w : World (Event EventJSON)) :
  MaxFilterLen + 2 < len (NewFiltersFromFilterJSONs (FilterJSONs msg)) ->
  V2.serveClientReqMsgJSON connID msg w
  = (Some (fmt_Errorf "filter is too long: %v"), w).
Proof.
  intro H. unfold V2.serveClientReqMsgJSON.
  now rewrite (gtb_true _ _ H).
Qed.

End RejectedReq.

Section RejectedEvent.
Context `{C : Collaborators}.

Lemma V1_event_unverified (now : Time) (msg : ClientEventMsgJSON EventJSON)
  (w : World EventJSON) :
  Verify (MsgEventJSON msg) <> (true, None) ->
  exists err,
    V1.serveClientEventMsgJSON now msg w
    = (Some err, logged w [call_Verify (MsgEventJSON msg)]).
Proof.
  intro Hfail. unfold V1.serveClientEventMsgJSON, bind, do_Verify, ret, logged.
  destruct (Verify (MsgEventJSON msg)) as [[|] [e |]]; cbn [fst snd negb];
    try (eexists; reflexivity).
  now contradiction Hfail.
Qed.

Lemma V2_event_unverified (now : Time) (msg : ClientEventMsgJSON EventJSON)
  (w : World (Event EventJSON)) :
  Verify (MsgEventJSON msg) <> (true, None) ->
  exists err,
    V2.serveClientEventMsgJSON now msg w
    = (Some err, logged w [call_Verify (MsgEventJSON msg)]).
Proof.
  intro Hfail. unfold V2.serveClientEventMsgJSON, bind, do_Verify, ret, logged.
  destruct (Verify (MsgEventJSON msg)) as [[|] [e |]]; cbn [fst snd negb];
    try (eexists; reflexivity).
  now contradiction Hfail.
Qed.

Lemma V2_event_invalid_created_at (now : Time)
  (msg : ClientEventMsgJSON EventJSON) (w : World (Event EventJSON)) :
  ValidCreatedAt (V2.NewEvent (MsgEventJSON msg) now) = false ->
  exists err,
    V2.serveClientEventMsgJSON now msg w
    = (Some err,
       logged w (call_Verify (MsgEventJSON msg)
                 :: if passes (Verify (MsgEventJSON msg))
                    then [call_Metric "promEventCounter"] else [])).
Proof.
  intro Hinv.
  unfold V2.serveClientEventMsgJSON, bind, do_Verify, emit, ret, logged, passes.
  destruct (Verify (MsgEventJSON msg)) as [[|] [e |]]; cbn [fst snd negb];
    try (eexists; reflexivity).
  rewrite Hinv. cbn [negb db router trace]. eexists.
  now rewrite <- app_assoc.
Qed.

End RejectedEvent.

Section ReadLimit.

Lemma wrap_int_small (z : Z) : int_min <= z <= int_max -> wrap_int z = z.
Proof.
  unfold wrap_int, int_min, int_max. intro H.
  rewrite Z.mod_small by lia. lia.
Qed.

Lemma len_firstn (A : Type) (n : Z) (l : list A) :
  0 <= n <= len l -> len (firstn (Z.to_nat n) l) = n.
Proof.
  unfold len. intro H. rewrite length_firstn. lia.
Qed.

Lemma OpCode_eqb_neq (a b : OpCode) : a <> b -> OpCode_eqb a b = false.
Proof. destruct a, b; intro H; try reflexivity; now contradiction H. Qed.

(** A payload longer than the maximum always makes [wsRead] fail. *)
Lemma wsRead_oversized (Max : Z) (wsr : Reader) :
  0 <= Max < int_max -> Max < len (payload_bytes wsr) ->
  exists err, snd (V1.wsRead Max wsr) = Some err.
Proof.
  intros Hmax Hlong. unfold V1.wsRead.
  rewrite wrap_int_small by (unfold int_min, int_max in *; lia).
  destruct (NextFrame_err wsr) as [e |]; [eexists; reflexivity |].
  destruct (OpCode_eqb (hdr_OpCode wsr) OpClose); [eexists; reflexivity |].
  unfold ReadAll_LimitReader.
  replace (Max + 1 <=? 0) with false by (symmetry; apply Z.leb_gt; lia).
  replace (Max + 1 <=? len (payload_bytes wsr)) with true
    by (symmetry; apply Z.leb_le; lia).
  rewrite len_firstn by lia. rewrite Z.eqb_refl. eexists; reflexivity.
Qed.

(** On a data frame the failure is the length error, and what was read is
    the first [Max + 1] bytes. *)
Lemma wsRead_too_long (Max : Z) (wsr : Reader) :
  0 <= Max < int_max -> Max < len (payload_bytes wsr) ->
  NextFrame_err wsr = None -> hdr_OpCode wsr <> OpClose ->
  V1.wsRead Max wsr
  = (firstn (Z.to_nat (Max + 1)) (payload_bytes wsr),
     Some (fmt_Errorf "websocket message is too long (len=%v): %s")).
Proof.
  intros Hmax Hlong Hhdr Hop. unfold V1.wsRead.
  rewrite wrap_int_small by (unfold int_min, int_max in *; lia).
  rewrite Hhdr, (OpCode_eqb_neq _ _ Hop). unfold ReadAll_LimitReader.
  replace (Max + 1 <=? 0) with false by (symmetry; apply Z.leb_gt; lia).
  replace (Max + 1 <=? len (payload_bytes wsr)) with true
    by (symmetry; apply Z.leb_le; lia).
  rewrite len_firstn by lia. now rewrite Z.eqb_refl.
Qed.

(** A payload within the maximum is returned whole, with the transport's
    own outcome. *)
Lemma wsRead_within (Max : Z) (wsr : Reader) :
  0 <= Max < int_max -> len (payload_bytes wsr) <= Max ->
  NextFrame_err wsr = None -> hdr_OpCode wsr <> OpClose ->
  V1.wsRead Max wsr = (payload_bytes wsr, payload_err wsr).
Proof.
  intros Hmax Hshort Hhdr Hop. unfold V1.wsRead.
  rewrite wrap_int_small by (unfold int_min, int_max in *; lia).
  rewrite Hhdr, (OpCode_eqb_neq _ _ Hop). unfold ReadAll_LimitReader.
  replace (Max + 1 <=? 0) with false by (symmetry; apply Z.leb_gt; lia).
  replace (Max + 1 <=? len (payload_bytes wsr)) with false
    by (symmetry; apply Z.leb_gt; lia).
  replace (len (payload_bytes wsr) =? Max + 1) with false
    by (symmetry; apply Z.eqb_neq; lia).
  reflexivity.
Qed.

End ReadLimit.

Section Flags.

Lemma flag_Int_last (name : string) (value n : Z) (args : cmdline) :
  flag_Int name value (args ++ [(name, n)]) = n.
Proof.
  unfold flag_Int. rewrite fold_left_app. cbn [fold_left fst snd].
  now rewrite String.eqb_refl.
Qed.

Lemma flag_Int_unset (name : string) (value : Z) (args : cmdline) :
  flag_Int name value (Main1.without_flag name args) = value.
Proof.
  unfold flag_Int, Main1.without_flag.
  induction args as [| [k v] args IH]; [reflexivity |].
  cbn [filter fst]. destruct (String.eqb k name) eqn:E; cbn [negb].
  - exact IH.
  - cbn [fold_left fst snd]. rewrite E. exact IH.
Qed.

End Flags.

Section ConnectionClose.

(** Once the upgrade has succeeded, each HTTP handler serves the connection
    and then closes it, whatever the serving call returns. *)
Lemma Main1_handler_closes (r : Http.Request) :
  Http.wants_nip11 r = false -> Http.UpgradeHTTP_err r = None ->
  Http.served_then_closed (Http.Main1_handler r).
Proof.
  intros Hws Hup. unfold Http.Main1_handler. unfold Http.wants_nip11 in Hws.
  rewrite Hws, Hup.
  destruct (Http.HandleWebsocket_err r) as [e |]; cbn [app].
  - exists [Http.call_UpgradeHTTP; Http.call_Log "connect websocket";
            Http.call_HandleWebsocket; Http.call_Log "websocket error";
            Http.call_Log "disconnect websocket"].
    repeat split.
  - exists [Http.call_UpgradeHTTP; Http.call_Log "connect websocket";
            Http.call_HandleWebsocket; Http.call_Log "disconnect websocket"].
    repeat split.
Qed.

Lemma RelayAccessHandlerFunc_closes (r : Http.Request) :
  Http.UpgradeHTTP_err r = None ->
  Http.served_then_closed (Http.RelayAccessHandlerFunc r).
Proof.
  intro Hup. unfold Http.RelayAccessHandlerFunc. rewrite Hup.
  destruct (Http.HandleWebsocket_err r) as [e |]; cbn [app].
  - exists [Http.call_UpgradeHTTP; Http.call_Log "connect websocket";
            Http.call_HandleWebsocket; Http.call_Log "websocket error";
            Http.call_Log "disconnect websocket"].
    repeat split.
  - exists [Http.call_UpgradeHTTP; Http.call_Log "connect websocket";
            Http.call_HandleWebsocket; Http.call_Log "disconnect websocket"].
    repeat split.
Qed.

End ConnectionClose.

(** ** The claims *)

(** C1.  A REQ that [serveClientReqMsgJSON] serves (its filter set is within
    the cap of the guard) puts on the sink the cached matching events as
    EVENT frames for its subscription, in the order [FindAll] returned them,
    then exactly one EOSE frame; [Router.Subscribe] is the call that follows
    the EOSE send.  Both revisions. *)
Theorem C1_replay_then_EOSE_then_Subscribe `{C : Collaborators}
  (connID : string) (msg : ClientReqMsgJSON FilterJSON)
  (Hcap : len (NewFiltersFromFilterJSONs (FilterJSONs msg))
          <= MaxFilterLen + 2) :
  let filters := NewFiltersFromFilterJSONs (FilterJSONs msg) in
  let subID := ReqSubscriptionID msg in
  (forall w : World EventJSON,
      let replay := replay_V1 subID (FindAll filters (db w)) in
      let w' := snd (V1.serveClientReqMsgJSON connID msg w) in
      fst (V1.serveClientReqMsgJSON connID msg w) = None
      /\ sent (trace w') = sent (trace w) ++ replay ++ [ServerEOSEMsg subID]
      /\ filter is_EOSE (replay ++ [ServerEOSEMsg subID])
         = [ServerEOSEMsg subID]
      /\ trace w'
         = trace w ++ call_FindAll filters :: map call_Send replay
           ++ [call_Send (ServerEOSEMsg subID);
               call_Subscribe connID subID filters])
  /\ (forall w : World (Event EventJSON),
      let replay := replay_V2 subID (FindAll filters (db w)) in
      let w' := snd (V2.serveClientReqMsgJSON connID msg w) in
      fst (V2.serveClientReqMsgJSON connID msg w) = None
      /\ sent (trace w') = sent (trace w) ++ replay ++ [ServerEOSEMsg subID]
      /\ filter is_EOSE (replay ++ [ServerEOSEMsg subID])
         = [ServerEOSEMsg subID]
      /\ trace w'
         = trace w ++ call_FindAll filters :: map call_Send replay
           ++ [call_Send (ServerEOSEMsg subID);
               call_Subscribe connID subID filters]).
Proof.
  intros filters subID. split; intros w replay w'; subst w'.
  - rewrite (V1_req_accepted connID msg w Hcap). cbn [fst snd trace].
    fold filters subID replay. repeat split.
    + now rewrite sent_app, sent_req_calls.
    + rewrite filter_app. unfold replay, replay_V1.
      now rewrite no_EOSE_in_events.
  - rewrite (V2_req_accepted connID msg w Hcap). cbn [fst snd trace].
    fold filters subID replay. repeat split.
    + now rewrite sent_app, sent_req_calls.
    + rewrite filter_app. unfold replay, replay_V2.
      now rewrite (no_EOSE_in_events _ _ subID (fun ev => ev)).
Qed.

Lemma C1_witness :
  len (@NewFiltersFromFilterJSONs Demo.relay (FilterJSONs (Demo.req 1)))
  <= MaxFilterLen + 2
  /\ sent (trace (snd (V1.serveClientReqMsgJSON (C := Demo.relay) "c2"
                         (Demo.req 1) (Demo.world0 _))))
     = [ServerEventMsg "a" (EventJSON_of Demo.e1);
        ServerEventMsg "a" (EventJSON_of Demo.e3);
        ServerEOSEMsg "a"].
Proof.
  assert (H : len (@NewFiltersFromFilterJSONs Demo.relay
                     (FilterJSONs (Demo.req 1))) <= MaxFilterLen + 2)
    by (apply Z.leb_le; reflexivity).
  split; [exact H |].
  destruct (C1_replay_then_EOSE_then_Subscribe (C := Demo.relay)
              "c2" (Demo.req 1) H) as [H1 _].
  destruct (H1 (Demo.world0 _)) as (_ & Hsent & _).
  rewrite Hsent. reflexivity.
Defined.

(** C2 (amended).  For an EVENT message that passes verification and, in
    the [RelayHandler] revision, whose [created_at] is valid, the handler
    calls [Save] on the event and then [Publish] on the same event, in that
    order and with nothing in between: the cache becomes the one [Save]
    returns, the router the one [Publish] returns, and the result is the
    publish error if there is one.  In the [RelayHandler] revision a
    verified event whose [created_at] is invalid is passed to neither. *)
Theorem C2_Save_before_Publish `{C : Collaborators}
  (now : Time) (msg : ClientEventMsgJSON EventJSON)
  (Hverified : Verify (MsgEventJSON msg) = (true, None)) :
  let event := mkEvent (MsgEventJSON msg) now in
  let published (r : Router) : option error :=
    match snd (Publish event r) with
    | Some _ => Some (fmt_Errorf "failed to publish event: %v")
    | None => None
    end in
  (forall w : World EventJSON,
      V1.serveClientEventMsgJSON now msg w
      = (published (router w),
         mkWorld (Save event (db w)) (fst (Publish event (router w)))
           (trace w ++ [call_Verify (MsgEventJSON msg);
                        call_Save event; call_Publish event])))
  /\ (forall w : World (Event EventJSON),
      V2.serveClientEventMsgJSON now msg w
      = if ValidCreatedAt event
        then (published (router w),
              mkWorld (Save event (db w)) (fst (Publish event (router w)))
                (trace w ++ [call_Verify (MsgEventJSON msg);
                             call_Metric "promEventCounter";
                             call_Save event; call_Publish event]))
        else (Some (fmt_Errorf "invalid created_at: %v"),
              logged w [call_Verify (MsgEventJSON msg);
                        call_Metric "promEventCounter"])).
Proof.
  intros event published. subst published. cbv beta. split; intro w.
  - unfold V1.serveClientEventMsgJSON, bind, do_Verify.
    rewrite Hverified. cbn [fst snd negb].
    unfold do_Save, do_Publish, ret. cbn [db router trace]. fold event.
    destruct (Publish event (router w)) as [r [e |]]; cbn [fst snd];
      repeat rewrite <- app_assoc; reflexivity.
  - unfold V2.serveClientEventMsgJSON, bind, do_Verify.
    rewrite Hverified. cbn [fst snd negb].
    unfold emit, V2.NewEvent. cbn [db router trace]. fold event.
    destruct (ValidCreatedAt event); cbn [negb].
    + unfold do_Save, do_Publish, ret. cbn [db router trace].
      destruct (Publish event (router w)) as [r [e |]]; cbn [fst snd];
        repeat rewrite <- app_assoc; reflexivity.
    + unfold ret, logged. cbn [db router trace].
      repeat rewrite <- app_assoc. reflexivity.
Qed.

Lemma C2_witness :
  @Verify Demo.relay Demo.ev_ok = (true, None)
  /\ V1.serveClientEventMsgJSON (C := Demo.relay) 200
       (mkClientEventMsgJSON Demo.ev_ok) (Demo.world0 _)
     = (None,
        mkWorld (C := Demo.relay)
          [Demo.e1; Demo.e2; Demo.e3; mkEvent Demo.ev_ok 200]
          [("c1"%string, "x"%string)]
          [call_Verify (C := Demo.relay) Demo.ev_ok;
           call_Save (C := Demo.relay) (mkEvent Demo.ev_ok 200);
           call_Publish (C := Demo.relay) (mkEvent Demo.ev_ok 200)])
  /\ V2.serveClientEventMsgJSON (C := Demo.relay) 200
       (mkClientEventMsgJSON Demo.ev_ok) (Demo.world0 _)
     = (None,
        mkWorld (C := Demo.relay)
          [Demo.e1; Demo.e2; Demo.e3; mkEvent Demo.ev_ok 200]
          [("c1"%string, "x"%string)]
          [call_Verify (C := Demo.relay) Demo.ev_ok;
           call_Metric "promEventCounter";
           call_Save (C := Demo.relay) (mkEvent Demo.ev_ok 200);
           call_Publish (C := Demo.relay) (mkEvent Demo.ev_ok 200)]).
Proof.
  split; [reflexivity |].
  destruct (C2_Save_before_Publish (C := Demo.relay) 200
              (mkClientEventMsgJSON Demo.ev_ok) eq_refl) as [H1 H2].
  split.
  - rewrite (H1 (Demo.world0 _)). reflexivity.
  - rewrite (H2 (Demo.world0 _)). reflexivity.
Defined.

Lemma C2_counterexample :
  @Verify Demo.relay Demo.ev_future = (true, None)
  /\ V2.serveClientEventMsgJSON (C := Demo.relay) 200
       (mkClientEventMsgJSON Demo.ev_future) (Demo.world0 _)
     = (Some (fmt_Errorf "invalid created_at: %v"),
        mkWorld (C := Demo.relay) [Demo.e1; Demo.e2; Demo.e3]
          [("c1"%string, "x"%string)]
          [call_Verify (C := Demo.relay) Demo.ev_future;
           call_Metric "promEventCounter"]).
Proof. split; reflexivity. Qed.

(** C3 (amended).  The guard of [serveClientReqMsgJSON] is
    [len(filters) > MaxFilterLen+2]: a REQ is rejected exactly when its filter
    set has more than 52 filters.  A rejected REQ returns the error and
    changes nothing (no snapshot, no EVENT or EOSE frame, no subscription);
    the receive loop logs it and goes on with the next frame.  A REQ with at
    most 52 filters is accepted.  Both revisions. *)
Theorem C3_cap_is_MaxFilterLen_plus_2 `{C : Collaborators}
  (connID : string) (msg : ClientReqMsgJSON FilterJSON) :
  let filters := NewFiltersFromFilterJSONs (FilterJSONs msg) in
  MaxFilterLen + 2 = 52
  /\ (MaxFilterLen + 2 < len filters ->
      (forall w : World EventJSON,
          V1.serveClientReqMsgJSON connID msg w
          = (Some (fmt_Errorf "filter is too long: %v"), w))
      /\ (forall w : World (Event EventJSON),
          V2.serveClientReqMsgJSON connID msg w
          = (Some (fmt_Errorf "filter is too long: %v"), w))
      /\ (forall Max t payload rest (w : World EventJSON),
          arrives t (V1.wsRead Max (reader t)) payload (IsClientReqMsgJSON msg) ->
          V1.wsReceiver Max connID (t :: rest) w
          = V1.wsReceiver Max connID rest
              (logged w [call_Parse payload; call_AccessLog payload;
                         call_Log "failed to serve client req msg"]))
      /\ (forall Max t payload rest (w : World (Event EventJSON)),
          arrives t (V2.wsRead Max (reader t)) payload (IsClientReqMsgJSON msg) ->
          V2.wsReceiver Max connID (t :: rest) w
          = V2.wsReceiver Max connID rest
              (logged w [call_Parse payload; call_Log "receive client msg";
                         call_Metric "promWSRecvCounter";
                         call_Log "failed to serve client req msg"])))
  /\ (len filters <= MaxFilterLen + 2 ->
      (forall w : World EventJSON,
          fst (V1.serveClientReqMsgJSON connID msg w) = None)
      /\ (forall w : World (Event EventJSON),
          fst (V2.serveClientReqMsgJSON connID msg w) = None)).
Proof.
  intro filters. split; [reflexivity |]. split.
  - intro Hover. split; [| split; [| split]].
    + intro w. now apply V1_req_rejected.
    + intro w. now apply V2_req_rejected.
    + intros Max t payload rest w Harr. enter_body Harr.
      rewrite V1_req_rejected by exact Hover.
      finish_body.
    + intros Max t payload rest w Harr. enter_body Harr.
      rewrite V2_req_rejected by exact Hover.
      finish_body.
  - intro Hcap. split; intro w.
    + now rewrite (V1_req_accepted connID msg w Hcap).
    + now rewrite (V2_req_accepted connID msg w Hcap).
Qed.

Lemma C3_witness :
  MaxFilterLen + 2
  < len (@NewFiltersFromFilterJSONs Demo.relay (FilterJSONs (Demo.req 53)))
  /\ len (@NewFiltersFromFilterJSONs Demo.relay (FilterJSONs (Demo.req 52)))
     <= MaxFilterLen + 2
  /\ V1.wsReceiver (C := Demo.relay) 1048576 "c2"
       [Demo.tick (x52 :: repeat x2c 52); Demo.tick [x43]] (Demo.world0 _)
     = V1.wsReceiver (C := Demo.relay) 1048576 "c2" [Demo.tick [x43]]
         (logged (Demo.world0 _)
            [call_Parse (x52 :: repeat x2c 52);
             call_AccessLog (x52 :: repeat x2c 52);
             call_Log "failed to serve client req msg"])
  /\ fst (V2.serveClientReqMsgJSON (C := Demo.relay) "c2" (Demo.req 52)
            (Demo.world0 _)) = None.
Proof.
  assert (Hover : MaxFilterLen + 2 < len (@NewFiltersFromFilterJSONs Demo.relay
                                        (FilterJSONs (Demo.req 53))))
    by reflexivity.
  assert (Hcap : len (@NewFiltersFromFilterJSONs Demo.relay
                        (FilterJSONs (Demo.req 52))) <= MaxFilterLen + 2)
    by (apply Z.leb_le; reflexivity).
  split; [exact Hover |]. split; [exact Hcap |]. split.
  - destruct (C3_cap_is_MaxFilterLen_plus_2 (C := Demo.relay) "c2"
                (Demo.req 53)) as (_ & Hrej & _).
    destruct (Hrej Hover) as (_ & _ & H1 & _).
    apply H1. repeat split.
  - destruct (C3_cap_is_MaxFilterLen_plus_2 (C := Demo.relay) "c2"
                (Demo.req 52)) as (_ & _ & Hacc).
    apply (proj2 (Hacc Hcap)).
Defined.

Lemma C3_counterexample :
  MaxFilterLen
  < len (@NewFiltersFromFilterJSONs Demo.relay (FilterJSONs (Demo.req 51)))
  /\ fst (V1.serveClientReqMsgJSON (C := Demo.relay) "c2" (Demo.req 51)
            (Demo.world0 _)) = None
  /\ sent (trace (snd (V1.serveClientReqMsgJSON (C := Demo.relay) "c2"
                         (Demo.req 51) (Demo.world0 _))))
     = [ServerEventMsg "a" (EventJSON_of Demo.e1);
        ServerEventMsg "a" (EventJSON_of Demo.e3);
        ServerEOSEMsg "a"]
  /\ fst (V2.serveClientReqMsgJSON (C := Demo.relay) "c2" (Demo.req 51)
            (Demo.world0 _)) = None
  /\ sent (trace (snd (V2.serveClientReqMsgJSON (C := Demo.relay) "c2"
                         (Demo.req 51) (Demo.world0 _))))
     = [ServerEventMsg "a" Demo.e1; ServerEventMsg "a" Demo.e3;
        ServerEOSEMsg "a"].
Proof. repeat split. Qed.

(** C4.  An EVENT message whose verification fails ([Verify] answers false
    or an error) is neither saved nor published: after the handler the cache
    and the router are those before it, and the only call made is [Verify].
    The receive loop logs the failure and goes on with the next frame.  Both
    revisions. *)
Theorem C4_unverified_event_is_skipped `{C : Collaborators}
  (connID : string) (msg : ClientEventMsgJSON EventJSON)
  (Hfail : Verify (MsgEventJSON msg) <> (true, None)) :
  (forall now (w : World EventJSON),
      exists err,
        V1.serveClientEventMsgJSON now msg w
        = (Some err, logged w [call_Verify (MsgEventJSON msg)]))
  /\ (forall now (w : World (Event EventJSON)),
      exists err,
        V2.serveClientEventMsgJSON now msg w
        = (Some err, logged w [call_Verify (MsgEventJSON msg)]))
  /\ (forall Max t payload rest (w : World EventJSON),
      arrives t (V1.wsRead Max (reader t)) payload (IsClientEventMsgJSON msg) ->
      V1.wsReceiver Max connID (t :: rest) w
      = V1.wsReceiver Max connID rest
          (logged w [call_Parse payload; call_AccessLog payload;
                     call_Verify (MsgEventJSON msg);
                     call_Log "failed to serve client event msg"]))
  /\ (forall Max t payload rest (w : World (Event EventJSON)),
      arrives t (V2.wsRead Max (reader t)) payload (IsClientEventMsgJSON msg) ->
      V2.wsReceiver Max connID (t :: rest) w
      = V2.wsReceiver Max connID rest
          (logged w [call_Parse payload; call_Log "receive client msg";
                     call_Metric "promWSRecvCounter";
                     call_Verify (MsgEventJSON msg);
                     call_Log "failed to serve client event msg"])).
Proof.
  split; [| split; [| split]].
  - intros now w. now apply V1_event_unverified.
  - intros now w. now apply V2_event_unverified.
  - intros Max t payload rest w Harr. enter_body Harr.
    match goal with
    | |- context [V1.serveClientEventMsgJSON ?n msg ?w0] =>
        destruct (V1_event_unverified n msg w0 Hfail) as [err ->]
    end.
    finish_body.
  - intros Max t payload rest w Harr. enter_body Harr.
    match goal with
    | |- context [V2.serveClientEventMsgJSON ?n msg ?w0] =>
        destruct (V2_event_unverified n msg w0 Hfail) as [err ->]
    end.
    finish_body.
Qed.

Lemma C4_witness :
  @Verify Demo.relay Demo.ev_badsig <> (true, None)
  /\ V1.wsReceiver (C := Demo.relay) 1048576 "c2"
       [Demo.tick [x45; x30]; Demo.tick [x45; x31]] (Demo.world0 _)
     = V1.wsReceiver (C := Demo.relay) 1048576 "c2" [Demo.tick [x45; x31]]
         (logged (Demo.world0 _)
            [call_Parse [x45; x30]; call_AccessLog [x45; x30];
             call_Verify (C := Demo.relay) Demo.ev_badsig;
             call_Log "failed to serve client event msg"]).
Proof.
  assert (H : @Verify Demo.relay Demo.ev_badsig <> (true, None))
    by (intro E; discriminate E).
  split; [exact H |].
  destruct (C4_unverified_event_is_skipped (C := Demo.relay) "c2"
              (mkClientEventMsgJSON Demo.ev_badsig) H) as (_ & _ & H1 & _).
  apply H1. repeat split.
Defined.

(** C5 (amended).  In the [RelayHandler] revision an EVENT message whose
    event has an invalid [created_at] is never passed to [Save] or
    [Publish]: the handler returns an error, the cache and the router are
    unchanged, the only calls made are [Verify] and, for a verified event,
    the event counter.  The check comes after verification and before
    [Save]; the receive loop logs the failure and goes on with the next
    frame. *)
Theorem C5_V2_invalid_created_at_is_skipped `{C : Collaborators}
  (connID : string) (now : Time) (msg : ClientEventMsgJSON EventJSON)
  (Hinvalid : ValidCreatedAt (V2.NewEvent (MsgEventJSON msg) now) = false) :
  let checked :=
    call_Verify (P := Event EventJSON) (MsgEventJSON msg)
    :: if passes (Verify (MsgEventJSON msg))
       then [call_Metric "promEventCounter"] else [] in
  (forall w : World (Event EventJSON),
      exists err,
        V2.serveClientEventMsgJSON now msg w = (Some err, logged w checked))
  /\ (forall w : World (Event EventJSON),
      Verify (MsgEventJSON msg) = (true, None) ->
      V2.serveClientEventMsgJSON now msg w
      = (Some (fmt_Errorf "invalid created_at: %v"),
         logged w [call_Verify (MsgEventJSON msg);
                   call_Metric "promEventCounter"]))
  /\ (forall Max t payload rest (w : World (Event EventJSON)),
      arrives t (V2.wsRead Max (reader t)) payload (IsClientEventMsgJSON msg) ->
      time_Now t = now ->
      V2.wsReceiver Max connID (t :: rest) w
      = V2.wsReceiver Max connID rest
          (logged w ([call_Parse payload; call_Log "receive client msg";
                      call_Metric "promWSRecvCounter"]
                     ++ checked
                     ++ [call_Log "failed to serve client event msg"]))).
Proof.
  intro checked. split; [| split].
  - intro w. now apply V2_event_invalid_created_at.
  - intros w Hok.
    unfold V2.serveClientEventMsgJSON, bind, do_Verify, emit, ret, logged.
    rewrite Hok. cbn [fst snd negb]. rewrite Hinvalid.
    cbn [negb db router trace]. now rewrite <- app_assoc.
  - intros Max t payload rest w Harr Hnow. enter_body Harr. rewrite Hnow.
    match goal with
    | |- context [V2.serveClientEventMsgJSON now msg ?w0] =>
        destruct (V2_event_invalid_created_at now msg w0 Hinvalid) as [err ->]
    end.
    fold checked. finish_body.
Qed.

Lemma C5_witness :
  @ValidCreatedAt Demo.relay (V2.NewEvent (C := Demo.relay) Demo.ev_future 200)
  = false
  /\ V2.serveClientEventMsgJSON (C := Demo.relay) 200
       (mkClientEventMsgJSON Demo.ev_future) (Demo.world0 _)
     = (Some (fmt_Errorf "invalid created_at: %v"),
        logged (Demo.world0 _)
          [call_Verify (C := Demo.relay) Demo.ev_future;
           call_Metric "promEventCounter"]).
Proof.
  split; [reflexivity |].
  destruct (C5_V2_invalid_created_at_is_skipped (C := Demo.relay) "c2" 200
              (mkClientEventMsgJSON Demo.ev_future) eq_refl) as (_ & H & _).
  apply H. reflexivity.
Defined.

Lemma C5_counterexample :
  @Verify Demo.relay Demo.ev_future = (true, None)
  /\ @ValidCreatedAt Demo.relay (mkEvent Demo.ev_future 200) = false
  /\ V1.serveClientEventMsgJSON (C := Demo.relay) 200
       (mkClientEventMsgJSON Demo.ev_future) (Demo.world0 _)
     = (None,
        mkWorld (C := Demo.relay)
          [Demo.e1; Demo.e2; Demo.e3; mkEvent Demo.ev_future 200]
          [("c1"%string, "x"%string)]
          [call_Verify (C := Demo.relay) Demo.ev_future;
           call_Save (C := Demo.relay) (mkEvent Demo.ev_future 200);
           call_Publish (C := Demo.relay) (mkEvent Demo.ev_future 200)]).
Proof. repeat split. Qed.

(** C6 (amended).  The maximum is [*MaxClientMesLen], 1048576 unless
    [-msglen] sets it.  For a maximum that is a length
    ([0 <= Max < MaxInt]), a frame whose payload is longer than the maximum
    makes [wsRead] return a non-nil error (on a data frame: the length
    error, which is not an end of input), on which the receive loop returns
    at once with no call made and no later frame read; [HandleWebsocket]
    and [Serve], receiving that error first from [errCh], return, and the
    HTTP handler that upgraded the connection then calls [conn.Close], once
    and last (on a data frame: after logging the websocket error).  A data
    frame whose payload is within the maximum is returned whole without a
    length error.  Both revisions. *)
Theorem C6_oversized_frame_closes_the_connection `{C : Collaborators}
  (Max : Z) (wsr : Reader) (Hmax : 0 <= Max < int_max) :
  Main1.MaxClientMesLen [] = 1048576
  /\ (Max < len (payload_bytes wsr) ->
      exists err,
        let returned := fmt_Errorf_w "receive error: %w" err in
        snd (V1.wsRead Max wsr) = Some err
        /\ snd (V2.wsRead Max wsr) = Some err
        /\ (forall connID t rest (w : World EventJSON),
            lim_Wait t = None -> reader t = wsr ->
            V1.wsReceiver Max connID (t :: rest) w = (Returned returned, w))
        /\ (forall connID t rest (w : World (Event EventJSON)),
            lim_Wait t = None -> reader t = wsr ->
            V2.wsReceiver Max connID (t :: rest) w = (Returned returned, w))
        /\ (forall r : Http.Request,
            Http.wants_nip11 r = false -> Http.UpgradeHTTP_err r = None ->
            Http.HandleWebsocket_err r = Conn.HandleWebsocket (Some returned) ->
            Http.served_then_closed (Http.Main1_handler r))
        /\ (forall r : Http.Request,
            Http.UpgradeHTTP_err r = None ->
            Http.HandleWebsocket_err r = Conn.Serve (Some returned) ->
            Http.served_then_closed (Http.RelayAccessHandlerFunc r))
        /\ (NextFrame_err wsr = None -> hdr_OpCode wsr <> OpClose ->
            err = fmt_Errorf "websocket message is too long (len=%v): %s"
            /\ Conn.HandleWebsocket (Some returned)
               = Some (fmt_Errorf_w "handle websocket error: %w" returned)
            /\ Conn.Serve (Some returned)
               = Some (fmt_Errorf_w "handle websocket error: %w" returned)
            /\ (forall r : Http.Request,
                Http.wants_nip11 r = false -> Http.UpgradeHTTP_err r = None ->
                Http.HandleWebsocket_err r
                = Conn.HandleWebsocket (Some returned) ->
                Http.Main1_handler r
                = [Http.call_UpgradeHTTP; Http.call_Log "connect websocket";
                   Http.call_HandleWebsocket; Http.call_Log "websocket error";
                   Http.call_Log "disconnect websocket";
                   Http.call_conn_Close])
            /\ (forall r : Http.Request,
                Http.UpgradeHTTP_err r = None ->
                Http.HandleWebsocket_err r = Conn.Serve (Some returned) ->
                Http.RelayAccessHandlerFunc r
                = [Http.call_UpgradeHTTP; Http.call_Log "connect websocket";
                   Http.call_HandleWebsocket; Http.call_Log "websocket error";
                   Http.call_Log "disconnect websocket";
                   Http.call_conn_Close])))
  /\ (len (payload_bytes wsr) <= Max ->
      NextFrame_err wsr = None -> hdr_OpCode wsr <> OpClose ->
      V1.wsRead Max wsr = (payload_bytes wsr, payload_err wsr)
      /\ V2.wsRead Max wsr = (payload_bytes wsr, payload_err wsr)).
Proof.
  split; [reflexivity |]. split.
  - intro Hlong.
    destruct (wsRead_oversized Max wsr Hmax Hlong) as [err Herr].
    exists err. intro returned.
    split; [exact Herr |]. split; [exact Herr |].
    split; [| split; [| split; [| split; [| ]]]].
    + intros connID t rest w Hlim Hrd.
      cbn [V1.wsReceiver]. unfold bind, V1.wsReceiver_body.
      rewrite Hlim, Hrd. destruct (V1.wsRead Max wsr) as [res rerr].
      cbn [snd] in Herr. now rewrite Herr.
    + intros connID t rest w Hlim Hrd.
      cbn [V2.wsReceiver]. unfold bind, V2.wsReceiver_body.
      rewrite Hlim, Hrd.
      change (V2.wsRead Max wsr) with (V1.wsRead Max wsr).
      destruct (V1.wsRead Max wsr) as [res rerr].
      cbn [snd] in Herr. now rewrite Herr.
    + intros r Hws Hup _. now apply Main1_handler_closes.
    + intros r Hup _. now apply RelayAccessHandlerFunc_closes.
    + intros Hhdr Hop.
      rewrite (wsRead_too_long Max wsr Hmax Hlong Hhdr Hop) in Herr.
      cbn [snd] in Herr. injection Herr as <-. subst returned.
      split; [reflexivity |]. split; [reflexivity |].
      split; [reflexivity |]. split.
      * intros r Hws Hup Hret. unfold Http.Main1_handler.
        unfold Http.wants_nip11 in Hws. now rewrite Hws, Hup, Hret.
      * intros r Hup Hret. unfold Http.RelayAccessHandlerFunc.
        now rewrite Hup, Hret.
  - intros Hshort Hhdr Hop. rewrite V2_wsRead_eq.
    split; apply wsRead_within; assumption.
Qed.

Lemma C6_witness :
  0 <= 3 < int_max
  /\ V1.wsReceiver (C := Demo.relay) 3 "c2"
       [Demo.tick [x45; x31; x45; x31]; Demo.tick [x45; x31]] (Demo.world0 _)
     = (Returned
          (fmt_Errorf_w "receive error: %w"
             (fmt_Errorf "websocket message is too long (len=%v): %s")),
        Demo.world0 _)
  /\ Http.Main1_handler
       (Http.mkRequest "" None None
          (Conn.HandleWebsocket
             (Some (fmt_Errorf_w "receive error: %w"
                      (fmt_Errorf
                         "websocket message is too long (len=%v): %s")))))
     = [Http.call_UpgradeHTTP; Http.call_Log "connect websocket";
        Http.call_HandleWebsocket; Http.call_Log "websocket error";
        Http.call_Log "disconnect websocket"; Http.call_conn_Close]
  /\ V1.wsRead 3 (Demo.text [x45; x31]) = ([x45; x31], None).
Proof.
  assert (Hmax : 0 <= 3 < int_max) by (split; [apply Z.leb_le | ]; reflexivity).
  assert (Hop : forall p, hdr_OpCode (Demo.text p) <> OpClose)
    by (intros p E; discriminate E).
  split; [exact Hmax |].
  destruct (C6_oversized_frame_closes_the_connection (C := Demo.relay) 3
              (Demo.text [x45; x31; x45; x31]) Hmax) as (_ & Hover & _).
  destruct (C6_oversized_frame_closes_the_connection (C := Demo.relay) 3
              (Demo.text [x45; x31]) Hmax) as (_ & _ & Hin).
  destruct (Hover eq_refl) as (err & _ & _ & H1 & _ & _ & _ & Hdata).
  destruct (Hdata eq_refl (Hop _)) as (-> & _ & _ & Hmain & _).
  split; [| split].
  - exact (H1 "c2"%string (Demo.tick [x45; x31; x45; x31])
             [Demo.tick [x45; x31]] (Demo.world0 _) eq_refl eq_refl).
  - apply Hmain; reflexivity.
  - exact (proj1 (Hin ltac:(apply Z.leb_le; reflexivity) eq_refl (Hop _))).
Defined.

Lemma C6_counterexample :
  -5 < len (payload_bytes (Demo.text [x45; x31; x45]))
  /\ V1.wsRead (-5) (Demo.text [x45; x31; x45]) = ([], None)
  /\ V2.wsRead (-5) (Demo.text [x45; x31; x45]) = ([], None)
  /\ fst (V1.wsReceiver (C := Demo.relay) (-5) "c2"
            [Demo.tick [x45; x31; x45]] (Demo.world0 _)) = Running
  /\ fst (V2.wsReceiver (C := Demo.relay) (-5) "c2"
            [Demo.tick [x45; x31; x45]] (Demo.world0 _)) = Running.
Proof. repeat split. Qed.

(** C7 (amended).  In the revision of main.go that declares the [-db] flag,
    [Run] creates the cache with capacity [*DBSize]: 10000 on a command
    line that does not set [-db], and the value of the last [-db] setting
    otherwise. *)
Theorem C7_db_flag_default_10000 {DB Filters : Type}
  (NewDB : Z -> Filters -> DB) (DefaultFilters : Filters)
  (args : cmdline) (n : Z) :
  Main1.Run_db NewDB DefaultFilters [] = NewDB 10000 DefaultFilters
  /\ Main1.Run_db NewDB DefaultFilters (Main1.without_flag "db" args)
     = NewDB 10000 DefaultFilters
  /\ Main1.Run_db NewDB DefaultFilters (args ++ [("db"%string, n)])
     = NewDB n DefaultFilters.
Proof.
  unfold Main1.Run_db, Main1.DBSize. repeat split.
  - now rewrite flag_Int_unset.
  - now rewrite flag_Int_last.
Qed.

Lemma C7_counterexample :
  Main0.Run_db (fun size : Z => size) = 5
  /\ Main0.Run_db (fun size : Z => size) <> Main1.DefaultDBSize.
Proof. split; [reflexivity | intro E; discriminate E]. Qed.

(** C8.  A frame whose payload does not parse as a client message is logged
    and skipped: the only calls are the parse and the log line, the cache
    and the router are unchanged, nothing is sent, and the loop goes on with
    the next frame.  Both revisions. *)
Theorem C8_malformed_frame_is_skipped `{C : Collaborators}
  (Max : Z) (connID : string) (t : Tick) (payload : list byte) (err : error)
  (rest : list Tick)
  (Hlim : lim_Wait t = None)
  (Hutf : utf8_Valid payload = true)
  (Hparse : ParseClientMsgJSON (string_of_bytes payload) = inr err) :
  (forall w : World EventJSON,
      V1.wsRead Max (reader t) = (payload, None) ->
      V1.wsReceiver Max connID (t :: rest) w
      = V1.wsReceiver Max connID rest
          (logged w [call_Parse payload; call_Log "received invalid msg"]))
  /\ (forall w : World (Event EventJSON),
      V2.wsRead Max (reader t) = (payload, None) ->
      V2.wsReceiver Max connID (t :: rest) w
      = V2.wsReceiver Max connID rest
          (logged w [call_Parse payload;
                     call_Log "received invalid client msg"])).
Proof.
  split; intros w Hread;
    cbn [V1.wsReceiver V2.wsReceiver]; unfold bind at 1;
    unfold V1.wsReceiver_body, V2.wsReceiver_body;
    rewrite Hlim, Hread, Hutf; cbn [negb];
    unfold bind at 1; unfold do_Parse at 1; rewrite Hparse;
    finish_body.
Qed.

Lemma C8_witness :
  utf8_Valid [x7b] = true
  /\ @ParseClientMsgJSON Demo.relay (string_of_bytes [x7b])
     = inr (external "not a client message")
  /\ V2.wsReceiver (C := Demo.relay) 1048576 "c2"
       [Demo.tick [x7b]; Demo.tick [x43]] (Demo.world0 _)
     = V2.wsReceiver (C := Demo.relay) 1048576 "c2" [Demo.tick [x43]]
         (logged (Demo.world0 _)
            [call_Parse [x7b]; call_Log "received invalid client msg"]).
Proof.
  split; [reflexivity |]. split; [reflexivity |].
  apply (proj2 (C8_malformed_frame_is_skipped (C := Demo.relay) 1048576 "c2"
                  (Demo.tick [x7b]) [x7b] (external "not a client message")
                  [Demo.tick [x43]] eq_refl eq_refl eq_refl)).
  reflexivity.
Defined.

(** C9.  When [Router.Subscribe] fails while a REQ is served, the replay
    frames and the EOSE frame are already on the sink and stay there, and
    [serveClientReqMsgJSON] returns [nil]: the receive loop logs no failure
    and goes on with the next frame.  Both revisions. *)
Theorem C9_Subscribe_error_is_discarded `{C : Collaborators}
  (connID : string) (msg : ClientReqMsgJSON FilterJSON)
  (Hcap : len (NewFiltersFromFilterJSONs (FilterJSONs msg))
          <= MaxFilterLen + 2) :
  let filters := NewFiltersFromFilterJSONs (FilterJSONs msg) in
  let subID := ReqSubscriptionID msg in
  (forall (w : World EventJSON) (e : error),
      snd (Subscribe connID subID filters (router w)) = Some e ->
      let calls := req_calls connID subID filters
                     (replay_V1 subID (FindAll filters (db w))) in
      let w' := mkWorld (db w) (fst (Subscribe connID subID filters (router w)))
                  (trace w ++ calls) in
      V1.serveClientReqMsgJSON connID msg w = (None, w')
      /\ sent calls = replay_V1 subID (FindAll filters (db w))
                      ++ [ServerEOSEMsg subID]
      /\ forall Max t payload rest,
          arrives t (V1.wsRead Max (reader t)) payload (IsClientReqMsgJSON msg) ->
          V1.wsReceiver Max connID (t :: rest) w
          = V1.wsReceiver Max connID rest
              (mkWorld (db w) (router w')
                 (trace w ++ [call_Parse payload; call_AccessLog payload]
                  ++ calls)))
  /\ (forall (w : World (Event EventJSON)) (e : error),
      snd (Subscribe connID subID filters (router w)) = Some e ->
      let calls := req_calls connID subID filters
                     (replay_V2 subID (FindAll filters (db w))) in
      let w' := mkWorld (db w) (fst (Subscribe connID subID filters (router w)))
                  (trace w ++ calls) in
      V2.serveClientReqMsgJSON connID msg w = (None, w')
      /\ sent calls = replay_V2 subID (FindAll filters (db w))
                      ++ [ServerEOSEMsg subID]
      /\ forall Max t payload rest,
          arrives t (V2.wsRead Max (reader t)) payload (IsClientReqMsgJSON msg) ->
          V2.wsReceiver Max connID (t :: rest) w
          = V2.wsReceiver Max connID rest
              (mkWorld (db w) (router w')
                 (trace w ++ [call_Parse payload; call_Log "receive client msg";
                              call_Metric "promWSRecvCounter"]
                  ++ calls))).
Proof.
  intros filters subID. split; intros w e Hfail calls w'.
  - split; [now apply V1_req_accepted |]. split; [apply sent_req_calls |].
    intros Max t payload rest Harr. enter_body Harr.
    rewrite V1_req_accepted by exact Hcap.
    fold filters subID calls. subst w'. finish_body.
  - split; [now apply V2_req_accepted |]. split; [apply sent_req_calls |].
    intros Max t payload rest Harr. enter_body Harr.
    rewrite V2_req_accepted by exact Hcap.
    fold filters subID calls. subst w'. finish_body.
Qed.

Lemma C9_witness :
  len (@NewFiltersFromFilterJSONs Demo.relay (FilterJSONs (Demo.req 1)))
  <= MaxFilterLen + 2
  /\ snd (@Subscribe Demo.relay "c1" "a" [1] (router (Demo.world0 (Event Demo.EventJSON))))
     = Some (external "too many subscriptions")
  /\ V2.serveClientReqMsgJSON (C := Demo.relay) "c1" (Demo.req 1)
       (Demo.world0 _)
     = (None,
        mkWorld (C := Demo.relay) [Demo.e1; Demo.e2; Demo.e3]
          [("c1"%string, "x"%string)]
          [call_FindAll (C := Demo.relay) [1];
           call_Send (C := Demo.relay) (ServerEventMsg "a" Demo.e1);
           call_Send (C := Demo.relay) (ServerEventMsg "a" Demo.e3);
           call_Send (C := Demo.relay) (ServerEOSEMsg "a");
           call_Subscribe (C := Demo.relay) "c1" "a" [1]]).
Proof.
  assert (Hcap : len (@NewFiltersFromFilterJSONs Demo.relay
                        (FilterJSONs (Demo.req 1))) <= MaxFilterLen + 2)
    by (apply Z.leb_le; reflexivity).
  split; [exact Hcap |]. split; [reflexivity |].
  destruct (C9_Subscribe_error_is_discarded (C := Demo.relay) "c1"
              (Demo.req 1) Hcap) as [_ H2].
  destruct (H2 (Demo.world0 _) (external "too many subscriptions") eq_refl)
    as [Hserve _].
  rewrite Hserve. reflexivity.
Defined.

(** C10.  A frame whose payload is not valid UTF-8 is logged and skipped
    without being parsed: the only call is the log line, the cache and the
    router are unchanged, nothing is sent, and the loop goes on with the
    next frame.  Both revisions. *)
Theorem C10_non_utf8_frame_is_skipped `{C : Collaborators}
  (Max : Z) (connID : string) (t : Tick) (payload : list byte)
  (rest : list Tick)
  (Hlim : lim_Wait t = None)
  (Hutf : utf8_Valid payload = false) :
  (forall w : World EventJSON,
      V1.wsRead Max (reader t) = (payload, None) ->
      V1.wsReceiver Max connID (t :: rest) w
      = V1.wsReceiver Max connID rest
          (logged w [call_Log "payload is not utf8"]))
  /\ (forall w : World (Event EventJSON),
      V2.wsRead Max (reader t) = (payload, None) ->
      V2.wsReceiver Max connID (t :: rest) w
      = V2.wsReceiver Max connID rest
          (logged w [call_Log "payload is not utf8"])).
Proof.
  split; intros w Hread;
    cbn [V1.wsReceiver V2.wsReceiver]; unfold bind at 1;
    unfold V1.wsReceiver_body, V2.wsReceiver_body;
    rewrite Hlim, Hread, Hutf; cbn [negb];
    finish_body.
Qed.

Lemma C10_witness :
  utf8_Valid [x52; xff] = false
  /\ V1.wsReceiver (C := Demo.relay) 1048576 "c2"
       [Demo.tick [x52; xff]; Demo.tick [x43]] (Demo.world0 _)
     = V1.wsReceiver (C := Demo.relay) 1048576 "c2" [Demo.tick [x43]]
         (logged (Demo.world0 _) [call_Log "payload is not utf8"]).
Proof.
  split; [reflexivity |].
  apply (proj1 (C10_non_utf8_frame_is_skipped (C := Demo.relay) 1048576 "c2"
                  (Demo.tick [x52; xff]) [x52; xff]
                  [Demo.tick [x43]] eq_refl eq_refl)).
  reflexivity.
Defined.

(** ** Lemmas on whole runs of the receive loops *)

Section Runs.
Context `{C : Collaborators}.

Lemma new_calls_app (P : Type) (w w' : World P) (calls : list (Call P)) :
  trace w' = trace w ++ calls -> new_calls w w' = calls.
Proof.
  intro H. unfold new_calls. rewrite H.
  rewrite skipn_app, skipn_all, Nat.sub_diag. reflexivity.
Qed.

Lemma trace_logged (P : Type) (w : World P) (calls : list (Call P)) :
  trace (logged w calls) = trace w ++ calls.
Proof. reflexivity. Qed.

Lemma In_sent (P : Type) (m : ServerMsg P) (calls : list (Call P)) :
  In m (sent calls) -> In (call_Send m) calls.
Proof.
  unfold sent. rewrite in_flat_map. intros (c & Hc & Hm).
  destruct c; cbn in Hm; try contradiction.
  destruct Hm as [-> | []]. exact Hc.
Qed.

Lemma Forall_sends (P A : Type) (Q : Call P -> Prop) (f : A -> ServerMsg P)
  (xs : list A) :
  (forall x, Q (call_Send (f x))) -> Forall Q (map call_Send (map f xs)).
Proof.
  intro H. induction xs as [| x xs IH]; cbn [map]; constructor; auto.
Qed.

(** The calls of one turn are accounted for by that turn. *)
Lemma V1_body_accounted (Max : Z) (connID : string) (t : Tick)
  (w : World EventJSON) :
  exists calls,
    trace (snd (V1.wsReceiver_body Max connID t w)) = trace w ++ calls
    /\ Forall (accounts_for no_extra_check connID t
                 (V1.wsRead Max (reader t))) calls.
Proof.
  unfold V1.wsReceiver_body.
  destruct (lim_Wait t) as [e |] eqn:Hlim.
  { exists []. now rewrite app_nil_r. }
  destruct (V1.wsRead Max (reader t)) as [payload [e |]] eqn:Hread.
  { exists []. now rewrite app_nil_r. }
  destruct (utf8_Valid payload) eqn:Hutf; cbn [negb].
  2:{ eexists. split; [reflexivity |]. repeat constructor. }
  unfold bind at 1. unfold do_Parse at 1.
  assert (Hp : accounts_for (P := EventJSON) no_extra_check connID t
                 (payload, @None error) (call_Parse payload))
    by (cbn; auto).
  assert (Ha : accounts_for (P := EventJSON) no_extra_check connID t
                 (payload, @None error) (call_AccessLog payload))
    by (cbn; auto).
  destruct (ParseClientMsgJSON (string_of_bytes payload))
    as [[msg | msg | msg |] | e] eqn:Hparse.
  - (* REQ *)
    assert (Harr : arrives t (payload, @None error) payload
                     (IsClientReqMsgJSON msg)) by (repeat split; assumption).
    unfold bind at 1. unfold emit at 1. cbn [db router trace].
    unfold bind at 1.
    destruct (Z_le_gt_dec
                (len (NewFiltersFromFilterJSONs (FilterJSONs msg)))
                (MaxFilterLen + 2)) as [Hcap | Hover].
    + rewrite (V1_req_accepted connID msg _ Hcap). cbn [ret snd trace].
      eexists. split; [repeat rewrite <- app_assoc; reflexivity |].
      cbn [app]. constructor; [exact Hp |]. constructor; [exact Ha |].
      unfold req_calls, replay_V1. constructor.
      { cbn. eauto 10. }
      apply Forall_app. split.
      { apply Forall_sends. intro ev. cbn. eauto 10. }
      constructor; [cbn; eauto 10 |]. constructor; [| constructor].
      cbn. exists payload, msg. auto 10.
    + rewrite V1_req_rejected by lia.
      unfold bind, log_Printf, emit, ret. cbn [snd db router trace].
      eexists. split; [repeat rewrite <- app_assoc; reflexivity |].
      cbn [app]. repeat constructor; assumption.
  - (* CLOSE *)
    assert (Harr : arrives t (payload, @None error) payload
                     (IsClientCloseMsgJSON msg)) by (repeat split; assumption).
    unfold V1.serveClientCloseMsgJSON, bind, log_Printf, emit, do_Close, ret.
    cbn [db router trace].
    destruct (Close connID (CloseSubscriptionID msg) (router w)) as [r [e |]];
      cbn [snd db router trace];
      (eexists; split; [repeat rewrite <- app_assoc; reflexivity |]);
      cbn [app]; repeat constructor; try assumption;
      cbn; exists payload, msg; auto.
  - (* EVENT *)
    assert (Harr : arrives t (payload, @None error) payload
                     (IsClientEventMsgJSON msg)) by (repeat split; assumption).
    unfold V1.serveClientEventMsgJSON, bind, log_Printf, emit, do_Verify,
      do_Save, do_Publish, ret.
    cbn [db router trace].
    destruct (Verify (MsgEventJSON msg)) as [[|] [e |]] eqn:Hv;
      cbn [fst snd negb db router trace];
      try (eexists; split; [repeat rewrite <- app_assoc; reflexivity |];
           cbn [app]; repeat constructor; try assumption;
           cbn; exists payload, msg; now auto).
    destruct (Publish _ (router w)) as [r [e |]];
      cbn [snd db router trace];
      (eexists; split; [repeat rewrite <- app_assoc; reflexivity |]);
      cbn [app]; repeat constructor; try assumption;
      cbn; exists payload, msg; auto 10.
  - (* another message type *)
    unfold bind, emit, ret. cbn [snd db router trace].
    eexists. split; [repeat rewrite <- app_assoc; reflexivity |].
    cbn [app]. repeat constructor; assumption.
  - unfold bind, log_Printf, emit, ret. cbn [snd db router trace].
    eexists. split; [repeat rewrite <- app_assoc; reflexivity |].
    cbn [app]. repeat constructor; assumption.
Qed.

Lemma V2_body_accounted (Max : Z) (connID : string) (t : Tick)
  (w : World (Event EventJSON)) :
  exists calls,
    trace (snd (V2.wsReceiver_body Max connID t w)) = trace w ++ calls
    /\ Forall (accounts_for ValidCreatedAt connID t
                 (V2.wsRead Max (reader t))) calls.
Proof.
  unfold V2.wsReceiver_body.
  destruct (lim_Wait t) as [e |] eqn:Hlim.
  { exists []. now rewrite app_nil_r. }
  destruct (V2.wsRead Max (reader t)) as [payload [e |]] eqn:Hread.
  { exists []. now rewrite app_nil_r. }
  destruct (utf8_Valid payload) eqn:Hutf; cbn [negb].
  2:{ eexists. split; [reflexivity |]. repeat constructor. }
  unfold bind at 1. unfold do_Parse at 1.
  assert (Hp : accounts_for (P := Event EventJSON) ValidCreatedAt connID t
                 (payload, @None error) (call_Parse payload))
    by (cbn; auto).
  destruct (ParseClientMsgJSON (string_of_bytes payload))
    as [[msg | msg | msg |] | e] eqn:Hparse.
  - (* REQ *)
    assert (Harr : arrives t (payload, @None error) payload
                     (IsClientReqMsgJSON msg)) by (repeat split; assumption).
    unfold bind at 1. unfold log_Printf at 1. unfold emit at 1.
    unfold bind at 1. unfold emit at 1. cbn [db router trace].
    unfold bind at 1.
    destruct (Z_le_gt_dec
                (len (NewFiltersFromFilterJSONs (FilterJSONs msg)))
                (MaxFilterLen + 2)) as [Hcap | Hover].
    + rewrite (V2_req_accepted connID msg _ Hcap). cbn [ret snd trace].
      eexists. split; [repeat rewrite <- app_assoc; reflexivity |].
      cbn [app]. constructor; [exact Hp |]. do 2 (constructor; [exact I |]).
      unfold req_calls, replay_V2. constructor.
      { cbn. eauto 10. }
      apply Forall_app. split.
      { apply Forall_sends. intro ev. cbn. eauto 10. }
      constructor; [cbn; eauto 10 |]. constructor; [| constructor].
      cbn. exists payload, msg. auto 10.
    + rewrite V2_req_rejected by lia.
      unfold bind, log_Printf, emit, ret. cbn [snd db router trace].
      eexists. split; [repeat rewrite <- app_assoc; reflexivity |].
      cbn [app]. repeat constructor; assumption.
  - (* CLOSE *)
    assert (Harr : arrives t (payload, @None error) payload
                     (IsClientCloseMsgJSON msg)) by (repeat split; assumption).
    unfold V2.serveClientCloseMsgJSON, bind, log_Printf, emit, do_Close, ret.
    cbn [db router trace].
    destruct (Close connID (CloseSubscriptionID msg) (router w)) as [r [e |]];
      cbn [snd db router trace];
      (eexists; split; [repeat rewrite <- app_assoc; reflexivity |]);
      cbn [app]; repeat constructor; try assumption;
      cbn; exists payload, msg; auto.
  - (* EVENT *)
    assert (Harr : arrives t (payload, @None error) payload
                     (IsClientEventMsgJSON msg)) by (repeat split; assumption).
    unfold V2.serveClientEventMsgJSON, V2.NewEvent, bind, log_Printf, emit,
      do_Verify, do_Save, do_Publish, ret.
    cbn [db router trace].
    destruct (Verify (MsgEventJSON msg)) as [[|] [e |]] eqn:Hv;
      cbn [fst snd negb db router trace];
      try (eexists; split; [repeat rewrite <- app_assoc; reflexivity |];
           cbn [app]; repeat constructor; try assumption;
           cbn; exists payload, msg; now auto).
    destruct (ValidCreatedAt (mkEvent (MsgEventJSON msg) (time_Now t)))
      eqn:Hvalid; cbn [negb snd db router trace].
    + destruct (Publish _ (router w)) as [r [e |]];
        cbn [snd db router trace];
        (eexists; split; [repeat rewrite <- app_assoc; reflexivity |]);
        cbn [app]; repeat constructor; try assumption;
        cbn; exists payload, msg; auto 10.
    + eexists; split; [repeat rewrite <- app_assoc; reflexivity |].
      cbn [app]; repeat constructor; try assumption.
      cbn; exists payload, msg; now auto.
  - (* another message type *)
    unfold bind, log_Printf, emit, ret. cbn [snd db router trace].
    eexists. split; [repeat rewrite <- app_assoc; reflexivity |].
    cbn [app]. repeat constructor; assumption.
  - unfold bind, log_Printf, emit, ret. cbn [snd db router trace].
    eexists. split; [repeat rewrite <- app_assoc; reflexivity |].
    cbn [app]. repeat constructor; assumption.
Qed.

(** The calls of a run are accounted for by the turns of its input, and a
    run returns only from a turn whose limiter or read failed. *)
Lemma V1_run_accounted (Max : Z) (connID : string) (input : list Tick)
  (w : World EventJSON) :
  exists calls,
    trace (snd (V1.wsReceiver Max connID input w)) = trace w ++ calls
    /\ Forall (accounted_V1 Max connID input) calls.
Proof.
  revert w. induction input as [| t rest IH]; intro w.
  - exists []. cbn. now rewrite app_nil_r.
  - cbn [V1.wsReceiver]. unfold bind.
    destruct (V1_body_accounted Max connID t w) as (c1 & Ht1 & Hc1).
    destruct (V1.wsReceiver_body Max connID t w) as [[e |] w1];
      cbn [snd] in Ht1.
    + exists c1. split; [exact Ht1 |].
      eapply Forall_impl; [| exact Hc1].
      intros c Hc. exists t. split; [now left | exact Hc].
    + destruct (IH w1) as (c2 & Ht2 & Hc2).
      exists (c1 ++ c2). split.
      * rewrite Ht2, Ht1. now rewrite app_assoc.
      * apply Forall_app. split.
        -- eapply Forall_impl; [| exact Hc1].
           intros c Hc. exists t. split; [now left | exact Hc].
        -- eapply Forall_impl; [| exact Hc2].
           intros c (t' & Hin & Hc). exists t'. split; [now right | exact Hc].
Qed.

Lemma V2_run_accounted (Max : Z) (connID : string) (input : list Tick)
  (w : World (Event EventJSON)) :
  exists calls,
    trace (snd (V2.wsReceiver Max connID input w)) = trace w ++ calls
    /\ Forall (accounted_V2 Max connID input) calls.
Proof.
  revert w. induction input as [| t rest IH]; intro w.
  - exists []. cbn. now rewrite app_nil_r.
  - cbn [V2.wsReceiver]. unfold bind.
    destruct (V2_body_accounted Max connID t w) as (c1 & Ht1 & Hc1).
    destruct (V2.wsReceiver_body Max connID t w) as [[e |] w1];
      cbn [snd] in Ht1.
    + exists c1. split; [exact Ht1 |].
      eapply Forall_impl; [| exact Hc1].
      intros c Hc. exists t. split; [now left | exact Hc].
    + destruct (IH w1) as (c2 & Ht2 & Hc2).
      exists (c1 ++ c2). split.
      * rewrite Ht2, Ht1. now rewrite app_assoc.
      * apply Forall_app. split.
        -- eapply Forall_impl; [| exact Hc1].
           intros c Hc. exists t. split; [now left | exact Hc].
        -- eapply Forall_impl; [| exact Hc2].
           intros c (t' & Hin & Hc). exists t'. split; [now right | exact Hc].
Qed.

Lemma V1_new_calls_accounted (Max : Z) (connID : string) (input : list Tick)
  (w : World EventJSON) (c : Call EventJSON) :
  In c (new_calls w (snd (V1.wsReceiver Max connID input w))) ->
  accounted_V1 Max connID input c.
Proof.
  destruct (V1_run_accounted Max connID input w) as (calls & Ht & Hc).
  rewrite (new_calls_app _ _ _ _ Ht). intro Hin.
  rewrite Forall_forall in Hc. now apply Hc.
Qed.

Lemma V2_new_calls_accounted (Max : Z) (connID : string) (input : list Tick)
  (w : World (Event EventJSON)) (c : Call (Event EventJSON)) :
  In c (new_calls w (snd (V2.wsReceiver Max connID input w))) ->
  accounted_V2 Max connID input c.
Proof.
  destruct (V2_run_accounted Max connID input w) as (calls & Ht & Hc).
  rewrite (new_calls_app _ _ _ _ Ht). intro Hin.
  rewrite Forall_forall in Hc. now apply Hc.
Qed.

End Runs.

Section MoreOnReading.

(** With a maximum that is a length, what [wsRead] returns is a prefix of
    the payload of at most [Max + 1] bytes, and of at most [Max] bytes when
    it returns no error. *)
Lemma wsRead_bounded (Max : Z) (wsr : Reader) :
  0 <= Max < int_max ->
  (exists k, fst (V1.wsRead Max wsr) = firstn k (payload_bytes wsr))
  /\ len (fst (V1.wsRead Max wsr)) <= Max + 1
  /\ (snd (V1.wsRead Max wsr) = None -> len (fst (V1.wsRead Max wsr)) <= Max).
Proof.
  intro Hmax. unfold V1.wsRead.
  rewrite wrap_int_small by (unfold int_min, int_max in *; lia).
  destruct (NextFrame_err wsr) as [e |].
  { cbn [fst snd]. split; [exists 0%nat; reflexivity |].
    split; [unfold len; cbn; lia | intro H; discriminate H]. }
  destruct (OpCode_eqb (hdr_OpCode wsr) OpClose).
  { cbn [fst snd]. split; [exists 0%nat; reflexivity |].
    split; [unfold len; cbn; lia | intro H; discriminate H]. }
  unfold ReadAll_LimitReader.
  replace (Max + 1 <=? 0) with false by (symmetry; apply Z.leb_gt; lia).
  destruct (Max + 1 <=? len (payload_bytes wsr)) eqn:Hle.
  - apply Z.leb_le in Hle. rewrite len_firstn by lia. rewrite Z.eqb_refl.
    cbn [fst snd]. split; [eexists; reflexivity |].
    split; [rewrite len_firstn by lia; lia | intro H; discriminate H].
  - apply Z.leb_gt in Hle.
    replace (len (payload_bytes wsr) =? Max + 1) with false
      by (symmetry; apply Z.eqb_neq; lia).
    cbn [fst snd]. split.
    + exists (List.length (payload_bytes wsr)). now rewrite firstn_all.
    + split; [lia | intros _; lia].
Qed.

End MoreOnReading.

(** ** Further properties of the receive path *)

(** X1.  [wsReceiver] returns only when the rate limiter or [wsRead] fails
    on some turn of its input, with that error wrapped; no frame that was
    read, however it is handled, makes it return.  Both revisions. *)
Theorem X1_receiver_returns_only_on_limiter_or_read_error
  `{C : Collaborators} (Max : Z) (connID : string) (input : list Tick)
  (err : error) :
  (forall w : World EventJSON,
      fst (V1.wsReceiver Max connID input w) = Returned err ->
      exists t e, In t input
        /\ ((lim_Wait t = Some e
             /\ err = fmt_Errorf_w "rate limiter returns error: %w" e)
            \/ (lim_Wait t = None
                /\ snd (V1.wsRead Max (reader t)) = Some e
                /\ err = fmt_Errorf_w "receive error: %w" e)))
  /\ (forall w : World (Event EventJSON),
      fst (V2.wsReceiver Max connID input w) = Returned err ->
      exists t e, In t input
        /\ ((lim_Wait t = Some e
             /\ err = fmt_Errorf_w "rate limiter returns error: %w" e)
            \/ (lim_Wait t = None
                /\ snd (V2.wsRead Max (reader t)) = Some e
                /\ err = fmt_Errorf_w "receive error: %w" e))).
Proof.
  split.
  - induction input as [| t rest IH]; intros w H; [discriminate H |].
    cbn [V1.wsReceiver] in H. unfold bind in H.
    destruct (V1.wsReceiver_body Max connID t w) as [[e0 |] w1] eqn:Hb.
    + cbn in H. injection H as ->. exists t.
      unfold V1.wsReceiver_body in Hb.
      destruct (lim_Wait t) as [e |] eqn:Hlim.
      { injection Hb as <- _. exists e. split; [now left | left; auto]. }
      destruct (V1.wsRead Max (reader t)) as [payload [e |]] eqn:Hread.
      { injection Hb as <- _. exists e. split; [now left | right; auto]. }
      exfalso. revert Hb.
      destruct (utf8_Valid payload); cbn [negb];
        unfold bind, log_Printf, emit, do_Parse, ret;
        [| intro Hb; discriminate Hb].
      destruct (ParseClientMsgJSON (string_of_bytes payload))
        as [[msg | msg | msg |] | e]; cbn [db router trace];
        try (intro Hb; discriminate Hb).
      * destruct (V1.serveClientReqMsgJSON _ _ _) as [[e |] w2];
          intro Hb; discriminate Hb.
      * destruct (V1.serveClientCloseMsgJSON _ _ _) as [[e |] w2];
          intro Hb; discriminate Hb.
      * destruct (V1.serveClientEventMsgJSON _ _ _) as [[e |] w2];
          intro Hb; discriminate Hb.
    + destruct (IH w1 H) as (t' & e & Hin & Hcase).
      exists t', e. split; [now right | exact Hcase].
  - induction input as [| t rest IH]; intros w H; [discriminate H |].
    cbn [V2.wsReceiver] in H. unfold bind in H.
    destruct (V2.wsReceiver_body Max connID t w) as [[e0 |] w1] eqn:Hb.
    + cbn in H. injection H as ->. exists t.
      unfold V2.wsReceiver_body in Hb.
      destruct (lim_Wait t) as [e |] eqn:Hlim.
      { injection Hb as <- _. exists e. split; [now left | left; auto]. }
      destruct (V2.wsRead Max (reader t)) as [payload [e |]] eqn:Hread.
      { injection Hb as <- _. exists e. split; [now left | right; auto]. }
      exfalso. revert Hb.
      destruct (utf8_Valid payload); cbn [negb];
        unfold bind, log_Printf, emit, do_Parse, ret;
        [| intro Hb; discriminate Hb].
      destruct (ParseClientMsgJSON (string_of_bytes payload))
        as [[msg | msg | msg |] | e]; cbn [db router trace];
        try (intro Hb; discriminate Hb).
      * destruct (V2.serveClientReqMsgJSON _ _ _) as [[e |] w2];
          intro Hb; discriminate Hb.
      * destruct (V2.serveClientCloseMsgJSON _ _ _) as [[e |] w2];
          intro Hb; discriminate Hb.
      * destruct (V2.serveClientEventMsgJSON _ _ _) as [[e |] w2];
          intro Hb; discriminate Hb.
    + destruct (IH w1 H) as (t' & e & Hin & Hcase).
      exists t', e. split; [now right | exact Hcase].
Qed.

Lemma X1_witness :
  fst (V1.wsReceiver (C := Demo.relay) 3 "c2"
         [Demo.tick [x45; x31]; Demo.tick [x45; x31; x45; x31]; Demo.tick [x43]]
         (Demo.world0 _))
  = Returned (fmt_Errorf_w "receive error: %w"
                (fmt_Errorf "websocket message is too long (len=%v): %s"))
  /\ exists t e,
      In t [Demo.tick [x45; x31]; Demo.tick [x45; x31; x45; x31];
            Demo.tick [x43]]
      /\ ((lim_Wait t = Some e
           /\ fmt_Errorf_w "receive error: %w"
                (fmt_Errorf "websocket message is too long (len=%v): %s")
              = fmt_Errorf_w "rate limiter returns error: %w" e)
          \/ (lim_Wait t = None
              /\ snd (V1.wsRead 3 (reader t)) = Some e
              /\ fmt_Errorf_w "receive error: %w"
                   (fmt_Errorf "websocket message is too long (len=%v): %s")
                 = fmt_Errorf_w "receive error: %w" e)).
Proof.
  split; [reflexivity |].
  apply (proj1 (X1_receiver_returns_only_on_limiter_or_read_error
                  (C := Demo.relay) 3 "c2" _ _) (Demo.world0 _)).
  reflexivity.
Defined.

(** X3.  With a maximum that is a length, every string a run passes to
    [ParseClientMsgJSON] is valid UTF-8, at most [Max] bytes long, and is
    the payload [wsRead] returned without error on a turn of the input.
    Both revisions. *)
Theorem X3_parser_sees_bounded_utf8 `{C : Collaborators}
  (Max : Z) (connID : string) (input : list Tick) (s : gostring)
  (Hmax : 0 <= Max < int_max) :
  (forall w : World EventJSON,
      In (call_Parse s) (new_calls w (snd (V1.wsReceiver Max connID input w))) ->
      utf8_Valid s = true /\ len s <= Max
      /\ exists t, In t input /\ V1.wsRead Max (reader t) = (s, None))
  /\ (forall w : World (Event EventJSON),
      In (call_Parse s) (new_calls w (snd (V2.wsReceiver Max connID input w))) ->
      utf8_Valid s = true /\ len s <= Max
      /\ exists t, In t input /\ V2.wsRead Max (reader t) = (s, None)).
Proof.
  split; intros w Hin.
  - destruct (V1_new_calls_accounted Max connID input w _ Hin)
      as (t & Ht & _ & Hread & Hutf).
    split; [exact Hutf |]. split; [| now exists t].
    destruct (wsRead_bounded Max (reader t) Hmax) as (_ & _ & Hb).
    rewrite Hread in Hb. now apply Hb.
  - destruct (V2_new_calls_accounted Max connID input w _ Hin)
      as (t & Ht & _ & Hread & Hutf).
    split; [exact Hutf |]. split; [| now exists t].
    destruct (wsRead_bounded Max (reader t) Hmax) as (_ & _ & Hb).
    change (V2.wsRead Max (reader t)) with (V1.wsRead Max (reader t)) in Hread.
    rewrite Hread in Hb. now apply Hb.
Qed.

Lemma X3_witness :
  0 <= 3 < int_max
  /\ In (call_Parse (C := Demo.relay) [x45; x31])
       (new_calls (Demo.world0 _)
          (snd (V1.wsReceiver (C := Demo.relay) 3 "c2"
                  [Demo.tick [xff]; Demo.tick [x45; x31]] (Demo.world0 _))))
  /\ utf8_Valid [x45; x31] = true /\ len [x45; x31] <= 3.
Proof.
  assert (Hmax : 0 <= 3 < int_max) by (split; [apply Z.leb_le | ]; reflexivity).
  assert (Hin : In (call_Parse (C := Demo.relay) [x45; x31])
       (new_calls (Demo.world0 _)
          (snd (V1.wsReceiver (C := Demo.relay) 3 "c2"
                  [Demo.tick [xff]; Demo.tick [x45; x31]] (Demo.world0 _)))))
    by (cbv; auto).
  split; [exact Hmax |]. split; [exact Hin |].
  destruct (proj1 (X3_parser_sees_bounded_utf8 (C := Demo.relay) 3 "c2"
                     [Demo.tick [xff]; Demo.tick [x45; x31]] [x45; x31] Hmax)
              (Demo.world0 _) Hin) as (H1 & H2 & _).
  split; assumption.
Defined.

(** X4.  Whatever the input, every event a run passes to [Save] or to
    [Publish] is the event of an EVENT message that arrived on a turn of the
    input, stamped with that turn's clock, and its [Verify] answered
    [(true, nil)]; in [V2] its [created_at] is valid as well. *)
Theorem X4_only_verified_events_are_stored `{C : Collaborators}
  (Max : Z) (connID : string) (input : list Tick) (ev : Event EventJSON) :
  (forall w : World EventJSON,
      let calls := new_calls w (snd (V1.wsReceiver Max connID input w)) in
      In (call_Save ev) calls \/ In (call_Publish ev) calls ->
      Verify (EventJSON_of ev) = (true, None)
      /\ exists t payload msg,
          In t input
          /\ arrives t (V1.wsRead Max (reader t)) payload
               (IsClientEventMsgJSON msg)
          /\ ev = mkEvent (MsgEventJSON msg) (time_Now t))
  /\ (forall w : World (Event EventJSON),
      let calls := new_calls w (snd (V2.wsReceiver Max connID input w)) in
      In (call_Save ev) calls \/ In (call_Publish ev) calls ->
      Verify (EventJSON_of ev) = (true, None)
      /\ ValidCreatedAt ev = true
      /\ exists t payload msg,
          In t input
          /\ arrives t (V2.wsRead Max (reader t)) payload
               (IsClientEventMsgJSON msg)
          /\ ev = mkEvent (MsgEventJSON msg) (time_Now t)).
Proof.
  split; intros w calls Hin; subst calls.
  - assert (H : accounted_V1 Max connID input (call_Save ev))
      by (destruct Hin as [Hin | Hin];
          apply (V1_new_calls_accounted Max connID input w) in Hin;
          exact Hin).
    destruct H as (t & Ht & payload & msg & Harr & -> & Hv & _).
    split; [exact Hv | now exists t, payload, msg].
  - assert (H : accounted_V2 Max connID input (call_Save ev))
      by (destruct Hin as [Hin | Hin];
          apply (V2_new_calls_accounted Max connID input w) in Hin;
          exact Hin).
    destruct H as (t & Ht & payload & msg & Harr & -> & Hv & Hvalid).
    split; [exact Hv |]. split; [exact Hvalid | now exists t, payload, msg].
Qed.

Lemma X4_witness :
  In (call_Save (C := Demo.relay) (mkEvent Demo.ev_ok 200))
    (new_calls (Demo.world0 _)
       (snd (V2.wsReceiver (C := Demo.relay) 1048576 "c2"
               [Demo.tick [x45; x30]; Demo.tick [x45; x46];
                Demo.tick [x45; x31]] (Demo.world0 _))))
  /\ @Verify Demo.relay Demo.ev_ok = (true, None)
  /\ @ValidCreatedAt Demo.relay (mkEvent Demo.ev_ok 200) = true.
Proof.
  assert (Hin : In (call_Save (C := Demo.relay) (mkEvent Demo.ev_ok 200))
    (new_calls (Demo.world0 _)
       (snd (V2.wsReceiver (C := Demo.relay) 1048576 "c2"
               [Demo.tick [x45; x30]; Demo.tick [x45; x46];
                Demo.tick [x45; x31]] (Demo.world0 _)))))
    by (cbv; auto 20).
  split; [exact Hin |].
  destruct (proj2 (X4_only_verified_events_are_stored (C := Demo.relay)
                     1048576 "c2" _ (mkEvent Demo.ev_ok 200))
              (Demo.world0 _) (or_introl Hin)) as (H1 & H2 & _).
  split; assumption.
Defined.

(** X5.  A run registers and closes subscriptions only under the
    connection's own id: every [Subscribe] call carries [connID], the
    subscription id and the filters of a REQ message that arrived on a turn
    of the input, with at most [MaxFilterLen + 2] filters; every [Close]
    call carries [connID] and the subscription id of a CLOSE message that
    arrived.  Both revisions. *)
Theorem X5_subscriptions_stay_within_the_connection `{C : Collaborators}
  (Max : Z) (connID : string) (input : list Tick)
  (connID' subID : string) :
  (forall (w : World EventJSON) filters,
      let calls := new_calls w (snd (V1.wsReceiver Max connID input w)) in
      (In (call_Subscribe connID' subID filters) calls ->
       connID' = connID /\ len filters <= MaxFilterLen + 2
       /\ exists t payload msg,
           In t input
           /\ arrives t (V1.wsRead Max (reader t)) payload
                (IsClientReqMsgJSON msg)
           /\ subID = ReqSubscriptionID msg
           /\ filters = NewFiltersFromFilterJSONs (FilterJSONs msg))
      /\ (In (call_Close connID' subID) calls ->
          connID' = connID
          /\ exists t payload msg,
              In t input
              /\ arrives t (V1.wsRead Max (reader t)) payload
                   (IsClientCloseMsgJSON msg)
              /\ subID = CloseSubscriptionID msg))
  /\ (forall (w : World (Event EventJSON)) filters,
      let calls := new_calls w (snd (V2.wsReceiver Max connID input w)) in
      (In (call_Subscribe connID' subID filters) calls ->
       connID' = connID /\ len filters <= MaxFilterLen + 2
       /\ exists t payload msg,
           In t input
           /\ arrives t (V2.wsRead Max (reader t)) payload
                (IsClientReqMsgJSON msg)
           /\ subID = ReqSubscriptionID msg
           /\ filters = NewFiltersFromFilterJSONs (FilterJSONs msg))
      /\ (In (call_Close connID' subID) calls ->
          connID' = connID
          /\ exists t payload msg,
              In t input
              /\ arrives t (V2.wsRead Max (reader t)) payload
                   (IsClientCloseMsgJSON msg)
              /\ subID = CloseSubscriptionID msg)).
Proof.
  split; intros w filters calls; subst calls; split; intro Hin.
  - apply (V1_new_calls_accounted Max connID input w) in Hin.
    destruct Hin as (t & Ht & payload & msg & Harr & -> & -> & -> & Hcap).
    split; [reflexivity |]. split; [exact Hcap |].
    now exists t, payload, msg.
  - apply (V1_new_calls_accounted Max connID input w) in Hin.
    destruct Hin as (t & Ht & payload & msg & Harr & -> & ->).
    split; [reflexivity | now exists t, payload, msg].
  - apply (V2_new_calls_accounted Max connID input w) in Hin.
    destruct Hin as (t & Ht & payload & msg & Harr & -> & -> & -> & Hcap).
    split; [reflexivity |]. split; [exact Hcap |].
    now exists t, payload, msg.
  - apply (V2_new_calls_accounted Max connID input w) in Hin.
    destruct Hin as (t & Ht & payload & msg & Harr & -> & ->).
    split; [reflexivity | now exists t, payload, msg].
Qed.

Lemma X5_witness :
  In (call_Subscribe (C := Demo.relay) (P := Demo.EventJSON) "c2" "a" [1])
    (new_calls (Demo.world0 _)
       (snd (V1.wsReceiver (C := Demo.relay) 1048576 "c2"
               [Demo.tick [x52]; Demo.tick [x43]] (Demo.world0 _))))
  /\ "c2"%string = "c2"%string
  /\ len (A := Z) [1] <= MaxFilterLen + 2.
Proof.
  assert (Hin : In (call_Subscribe (C := Demo.relay) (P := Demo.EventJSON)
                      "c2" "a" [1])
    (new_calls (Demo.world0 _)
       (snd (V1.wsReceiver (C := Demo.relay) 1048576 "c2"
               [Demo.tick [x52]; Demo.tick [x43]] (Demo.world0 _)))))
    by (cbv; auto 20).
  split; [exact Hin |].
  destruct (proj1 (proj1 (X5_subscriptions_stay_within_the_connection
                            (C := Demo.relay) 1048576 "c2" _ "c2" "a")
                     (Demo.world0 _) [1]) Hin) as (H1 & H2 & _).
  split; assumption.
Defined.

(** X6.  Every frame a run puts on the sink carries the subscription id of
    a REQ message that arrived on a turn of the input and was within the
    filter cap: the reader task sends replay and EOSE frames only, and only
    for subscriptions the client asked for.  Both revisions. *)
Theorem X6_frames_belong_to_a_received_REQ `{C : Collaborators}
  (Max : Z) (connID : string) (input : list Tick) :
  (forall (w : World EventJSON) (m : ServerMsg EventJSON),
      In m (sent (new_calls w (snd (V1.wsReceiver Max connID input w)))) ->
      exists t payload msg,
        In t input
        /\ arrives t (V1.wsRead Max (reader t)) payload (IsClientReqMsgJSON msg)
        /\ SubscriptionID_of m = ReqSubscriptionID msg
        /\ len (NewFiltersFromFilterJSONs (FilterJSONs msg))
           <= MaxFilterLen + 2)
  /\ (forall (w : World (Event EventJSON)) (m : ServerMsg (Event EventJSON)),
      In m (sent (new_calls w (snd (V2.wsReceiver Max connID input w)))) ->
      exists t payload msg,
        In t input
        /\ arrives t (V2.wsRead Max (reader t)) payload (IsClientReqMsgJSON msg)
        /\ SubscriptionID_of m = ReqSubscriptionID msg
        /\ len (NewFiltersFromFilterJSONs (FilterJSONs msg))
           <= MaxFilterLen + 2).
Proof.
  split; intros w m Hin.
  - assert (Hc : In (call_Send m)
                   (new_calls w (snd (V1.wsReceiver Max connID input w))))
      by (now apply In_sent).
    apply (V1_new_calls_accounted Max connID input w) in Hc.
    destruct Hc as (t & Ht & payload & msg & Harr & Hsub & Hcap).
    now exists t, payload, msg.
  - assert (Hc : In (call_Send m)
                   (new_calls w (snd (V2.wsReceiver Max connID input w))))
      by (now apply In_sent).
    apply (V2_new_calls_accounted Max connID input w) in Hc.
    destruct Hc as (t & Ht & payload & msg & Harr & Hsub & Hcap).
    now exists t, payload, msg.
Qed.

Lemma X6_witness :
  In (ServerEOSEMsg (P := Demo.EventJSON) "a")
    (sent (new_calls (Demo.world0 _)
             (snd (V1.wsReceiver (C := Demo.relay) 1048576 "c2"
                     [Demo.tick [x52]] (Demo.world0 _)))))
  /\ exists t payload msg,
      In t [Demo.tick [x52]]
      /\ arrives (C := Demo.relay) t (V1.wsRead 1048576 (reader t)) payload
           (IsClientReqMsgJSON msg)
      /\ SubscriptionID_of (ServerEOSEMsg (P := Demo.EventJSON) "a")
         = ReqSubscriptionID msg
      /\ len (@NewFiltersFromFilterJSONs Demo.relay (FilterJSONs msg))
         <= MaxFilterLen + 2.
Proof.
  assert (Hin : In (ServerEOSEMsg (P := Demo.EventJSON) "a")
    (sent (new_calls (Demo.world0 _)
             (snd (V1.wsReceiver (C := Demo.relay) 1048576 "c2"
                     [Demo.tick [x52]] (Demo.world0 _))))))
    by (cbv; auto 20).
  split; [exact Hin |].
  exact (proj1 (X6_frames_belong_to_a_received_REQ (C := Demo.relay)
                  1048576 "c2" [Demo.tick [x52]]) (Demo.world0 _) _ Hin).
Defined.

(** X7.  A CLOSE message is passed to [Router.Close] under the connection's
    id; the router is the one [Close] returns and the cache is untouched.
    When [Close] fails the handler returns an error, which the loop logs;
    either way the loop goes on with the next frame.  Both revisions. *)
Theorem X7_CLOSE_is_delegated_and_never_fatal `{C : Collaborators}
  (Max : Z) (connID : string) (t : Tick) (payload : list byte)
  (msg : ClientCloseMsgJSON) (rest : list Tick) :
  let subID := CloseSubscriptionID msg in
  (forall w : World EventJSON,
      arrives t (V1.wsRead Max (reader t)) payload (IsClientCloseMsgJSON msg) ->
      V1.wsReceiver Max connID (t :: rest) w
      = V1.wsReceiver Max connID rest
          (mkWorld (db w) (fst (Close connID subID (router w)))
             (trace w ++ [call_Parse payload; call_AccessLog payload;
                          call_Close connID subID]
              ++ match snd (Close connID subID (router w)) with
                 | Some _ => [call_Log "failed to serve client close msg"]
                 | None => []
                 end)))
  /\ (forall w : World (Event EventJSON),
      arrives t (V2.wsRead Max (reader t)) payload (IsClientCloseMsgJSON msg) ->
      V2.wsReceiver Max connID (t :: rest) w
      = V2.wsReceiver Max connID rest
          (mkWorld (db w) (fst (Close connID subID (router w)))
             (trace w ++ [call_Parse payload; call_Log "receive client msg";
                          call_Metric "promWSRecvCounter";
                          call_Close connID subID]
              ++ match snd (Close connID subID (router w)) with
                 | Some _ => [call_Log "failed to serve client close msg"]
                 | None => []
                 end))).
Proof.
  intro subID. split; intros w Harr; enter_body Harr.
  - unfold V1.serveClientCloseMsgJSON, bind, do_Close. cbn [db router trace].
    fold subID.
    destruct (Close connID subID (router w)) as [r [e |]]; cbn [fst snd];
      finish_body.
  - unfold V2.serveClientCloseMsgJSON, bind, do_Close. cbn [db router trace].
    fold subID.
    destruct (Close connID subID (router w)) as [r [e |]]; cbn [fst snd];
      finish_body.
Qed.

Lemma X7_witness :
  arrives (C := Demo.relay) (Demo.tick [x43])
    (V1.wsRead 1048576 (reader (Demo.tick [x43]))) [x43]
    (IsClientCloseMsgJSON (mkClientCloseMsgJSON "a"))
  /\ V1.wsReceiver (C := Demo.relay) 1048576 "c1"
       [Demo.tick [x43]; Demo.tick [x52]] (Demo.world0 _)
     = V1.wsReceiver (C := Demo.relay) 1048576 "c1" [Demo.tick [x52]]
         (logged (Demo.world0 _)
            [call_Parse [x43]; call_AccessLog [x43];
             call_Close (C := Demo.relay) "c1" "a";
             call_Log "failed to serve client close msg"]).
Proof.
  assert (Harr : arrives (C := Demo.relay) (Demo.tick [x43])
    (V1.wsRead 1048576 (reader (Demo.tick [x43]))) [x43]
    (IsClientCloseMsgJSON (mkClientCloseMsgJSON "a")))
    by (repeat split).
  split; [exact Harr |].
  rewrite (proj1 (X7_CLOSE_is_delegated_and_never_fatal (C := Demo.relay)
                    1048576 "c1" (Demo.tick [x43]) [x43]
                    (mkClientCloseMsgJSON "a") [Demo.tick [x52]])
             (Demo.world0 _) Harr).
  reflexivity.
Defined.

(** X8.  When [Publish] fails for an event that was verified (and, in [V2],
    has a valid [created_at]), the event has already been saved and stays in
    the cache: the handler returns the publish error, the loop logs it and
    goes on with the next frame.  Both revisions. *)
Theorem X8_failed_Publish_leaves_the_event_saved `{C : Collaborators}
  (Max : Z) (connID : string) (t : Tick) (payload : list byte)
  (msg : ClientEventMsgJSON EventJSON) (rest : list Tick) (e : error)
  (Hverified : Verify (MsgEventJSON msg) = (true, None)) :
  let event := mkEvent (MsgEventJSON msg) (time_Now t) in
  (forall w : World EventJSON,
      snd (Publish event (router w)) = Some e ->
      V1.serveClientEventMsgJSON (time_Now t) msg w
      = (Some (fmt_Errorf "failed to publish event: %v"),
         mkWorld (Save event (db w)) (fst (Publish event (router w)))
           (trace w ++ [call_Verify (MsgEventJSON msg); call_Save event;
                        call_Publish event]))
      /\ (arrives t (V1.wsRead Max (reader t)) payload
            (IsClientEventMsgJSON msg) ->
          V1.wsReceiver Max connID (t :: rest) w
          = V1.wsReceiver Max connID rest
              (mkWorld (Save event (db w)) (fst (Publish event (router w)))
                 (trace w ++ [call_Parse payload; call_AccessLog payload;
                              call_Verify (MsgEventJSON msg); call_Save event;
                              call_Publish event;
                              call_Log "failed to serve client event msg"]))))
  /\ (forall w : World (Event EventJSON),
      ValidCreatedAt event = true ->
      snd (Publish event (router w)) = Some e ->
      V2.serveClientEventMsgJSON (time_Now t) msg w
      = (Some (fmt_Errorf "failed to publish event: %v"),
         mkWorld (Save event (db w)) (fst (Publish event (router w)))
           (trace w ++ [call_Verify (MsgEventJSON msg);
                        call_Metric "promEventCounter"; call_Save event;
                        call_Publish event]))
      /\ (arrives t (V2.wsRead Max (reader t)) payload
            (IsClientEventMsgJSON msg) ->
          V2.wsReceiver Max connID (t :: rest) w
          = V2.wsReceiver Max connID rest
              (mkWorld (Save event (db w)) (fst (Publish event (router w)))
                 (trace w ++ [call_Parse payload; call_Log "receive client msg";
                              call_Metric "promWSRecvCounter";
                              call_Verify (MsgEventJSON msg);
                              call_Metric "promEventCounter"; call_Save event;
                              call_Publish event;
                              call_Log "failed to serve client event msg"])))).
Proof.
  intro event. split.
  - intros w Hpub.
    assert (Hserve : forall w0 : World EventJSON,
               snd (Publish event (router w0)) = Some e ->
               V1.serveClientEventMsgJSON (time_Now t) msg w0
               = (Some (fmt_Errorf "failed to publish event: %v"),
                  mkWorld (Save event (db w0)) (fst (Publish event (router w0)))
                    (trace w0 ++ [call_Verify (MsgEventJSON msg);
                                  call_Save event; call_Publish event]))).
    { intros w0 H0.
      unfold V1.serveClientEventMsgJSON, bind, do_Verify, do_Save, do_Publish,
        ret.
      rewrite Hverified. cbn [fst snd negb db router trace]. fold event.
      destruct (Publish event (router w0)) as [r [e0 |]];
        cbn [fst snd] in *; [| discriminate H0].
      now repeat rewrite <- app_assoc. }
    split; [now apply Hserve |].
    intro Harr. enter_body Harr.
    rewrite Hserve by exact Hpub. finish_body.
  - intros w Hvalid Hpub.
    assert (Hserve : forall w0 : World (Event EventJSON),
               snd (Publish event (router w0)) = Some e ->
               V2.serveClientEventMsgJSON (time_Now t) msg w0
               = (Some (fmt_Errorf "failed to publish event: %v"),
                  mkWorld (Save event (db w0)) (fst (Publish event (router w0)))
                    (trace w0 ++ [call_Verify (MsgEventJSON msg);
                                  call_Metric "promEventCounter";
                                  call_Save event; call_Publish event]))).
    { intros w0 H0.
      unfold V2.serveClientEventMsgJSON, V2.NewEvent, bind, do_Verify, emit,
        do_Save, do_Publish, ret.
      rewrite Hverified. cbn [fst snd negb db router trace]. fold event.
      rewrite Hvalid. cbn [negb db router trace].
      destruct (Publish event (router w0)) as [r [e0 |]];
        cbn [fst snd] in *; [| discriminate H0].
      now repeat rewrite <- app_assoc. }
    split; [now apply Hserve |].
    intro Harr. enter_body Harr.
    rewrite Hserve by exact Hpub. finish_body.
Qed.

Lemma X8_witness :
  @Verify DemoTornDown.relay DemoTornDown.ev7 = (true, None)
  /\ snd (@Publish DemoTornDown.relay (mkEvent DemoTornDown.ev7 200)
            (router (DemoTornDown.world0 Demo.EventJSON)))
     = Some (external "sink is gone")
  /\ V1.serveClientEventMsgJSON (C := DemoTornDown.relay) 200
       (mkClientEventMsgJSON DemoTornDown.ev7) (DemoTornDown.world0 _)
     = (Some (fmt_Errorf "failed to publish event: %v"),
        mkWorld (C := DemoTornDown.relay)
          [Demo.e1; mkEvent DemoTornDown.ev7 200] []
          [call_Verify (C := DemoTornDown.relay) DemoTornDown.ev7;
           call_Save (C := DemoTornDown.relay) (mkEvent DemoTornDown.ev7 200);
           call_Publish (C := DemoTornDown.relay)
             (mkEvent DemoTornDown.ev7 200)]).
Proof.
  split; [reflexivity |]. split; [reflexivity |].
  destruct (proj1 (X8_failed_Publish_leaves_the_event_saved
                     (C := DemoTornDown.relay) 1048576 "c2"
                     (mkTick None (Demo.text []) 200) []
                     (mkClientEventMsgJSON DemoTornDown.ev7) []
                     (external "sink is gone") eq_refl)
              (DemoTornDown.world0 _) eq_refl) as [H _].
  exact H.
Defined.

(** X9.  With a maximum that is a length, [wsRead] never returns more than
    [Max + 1] bytes, what it returns is a prefix of the frame's payload, and
    whenever it returns no error it returns at most [Max] bytes.  Both
    revisions. *)
Theorem X9_wsRead_reads_at_most_one_byte_over (Max : Z) (wsr : Reader)
  (Hmax : 0 <= Max < int_max) :
  (exists k, fst (V1.wsRead Max wsr) = firstn k (payload_bytes wsr))
  /\ len (fst (V1.wsRead Max wsr)) <= Max + 1
  /\ (snd (V1.wsRead Max wsr) = None -> len (fst (V1.wsRead Max wsr)) <= Max)
  /\ V2.wsRead Max wsr = V1.wsRead Max wsr.
Proof.
  destruct (wsRead_bounded Max wsr Hmax) as (H1 & H2 & H3).
  repeat split; assumption.
Qed.

Lemma X9_witness :
  0 <= 2 < int_max
  /\ len (fst (V1.wsRead 2 (Demo.text [x45; x31; x45; x31; x45]))) <= 2 + 1.
Proof.
  assert (Hmax : 0 <= 2 < int_max) by (split; [apply Z.leb_le | ]; reflexivity).
  split; [exact Hmax |].
  exact (proj1 (proj2 (X9_wsRead_reads_at_most_one_byte_over 2
                         (Demo.text [x45; x31; x45; x31; x45]) Hmax))).
Defined.

(** X10.  Outside the range of a length the limit of [wsRead] degenerates.
    With [-msglen -1] the limit is 0 and every data frame, even an empty
    one, is answered with the length error.  With a maximum below -1, and
    with the largest [int] (where [Max + 1] wraps around), the limit is
    negative: nothing is read and every data frame is returned as the empty
    payload without error, whatever its length.  Both revisions. *)
Theorem X10_wsRead_outside_the_range_of_lengths (Max : Z) (wsr : Reader)
  (Hhdr : NextFrame_err wsr = None) (Hop : hdr_OpCode wsr <> OpClose) :
  (Max = -1 ->
   V1.wsRead Max wsr
   = ([], Some (fmt_Errorf "websocket message is too long (len=%v): %s"))
   /\ V2.wsRead Max wsr
      = ([], Some (fmt_Errorf "websocket message is too long (len=%v): %s")))
  /\ (int_min <= Max < -1 \/ Max = int_max ->
      V1.wsRead Max wsr = ([], None) /\ V2.wsRead Max wsr = ([], None)).
Proof.
  split.
  - intros ->. rewrite V2_wsRead_eq. unfold V1.wsRead.
    rewrite Hhdr, (OpCode_eqb_neq _ _ Hop). split; reflexivity.
  - intro Hrange. rewrite V2_wsRead_eq.
    assert (Hneg : wrap_int (Max + 1) < 0).
    { destruct Hrange as [H | ->].
      - rewrite wrap_int_small by (unfold int_min, int_max in *; lia). lia.
      - reflexivity. }
    unfold V1.wsRead. rewrite Hhdr, (OpCode_eqb_neq _ _ Hop).
    unfold ReadAll_LimitReader.
    replace (wrap_int (Max + 1) <=? 0) with true
      by (symmetry; apply Z.leb_le; lia).
    replace (len (@nil byte) =? wrap_int (Max + 1)) with false
      by (symmetry; apply Z.eqb_neq; unfold len; cbn; lia).
    split; reflexivity.
Qed.

Lemma X10_witness :
  int_min <= -5 < -1
  /\ V1.wsRead (-5) (Demo.text [x45; x31; x45]) = ([], None)
  /\ V1.wsRead (-1) (Demo.text [])
     = ([], Some (fmt_Errorf "websocket message is too long (len=%v): %s")).
Proof.
  assert (Hr : int_min <= -5 < -1) by (split; [apply Z.leb_le | ]; reflexivity).
  assert (Hop : forall p, hdr_OpCode (Demo.text p) <> OpClose)
    by (intros p E; discriminate E).
  split; [exact Hr |]. split.
  - exact (proj1 (proj2 (X10_wsRead_outside_the_range_of_lengths (-5)
                           (Demo.text [x45; x31; x45]) eq_refl (Hop _))
                    (or_introl Hr))).
  - exact (proj1 (proj1 (X10_wsRead_outside_the_range_of_lengths (-1)
                           (Demo.text []) eq_refl (Hop _)) eq_refl)).
Defined.

(** ** Properties of the connection and HTTP handlers *)

Section ReceiverToConn.
Context `{C : Collaborators}.

(** A turn whose read fails makes the loop return that error wrapped, with
    the world untouched. *)
Lemma V1_read_error_returns (Max : Z) (connID : string) (t : Tick)
  (rest : list Tick) (w : World EventJSON) (e : error) :
  lim_Wait t = None -> snd (V1.wsRead Max (reader t)) = Some e ->
  V1.wsReceiver Max connID (t :: rest) w
  = (Returned (fmt_Errorf_w "receive error: %w" e), w).
Proof.
  intros Hlim Hread. cbn [V1.wsReceiver]. unfold bind, V1.wsReceiver_body.
  rewrite Hlim. destruct (V1.wsRead Max (reader t)) as [res rerr].
  cbn [snd] in Hread. now rewrite Hread.
Qed.

Lemma V2_read_error_returns (Max : Z) (connID : string) (t : Tick)
  (rest : list Tick) (w : World (Event EventJSON)) (e : error) :
  lim_Wait t = None -> snd (V2.wsRead Max (reader t)) = Some e ->
  V2.wsReceiver Max connID (t :: rest) w
  = (Returned (fmt_Errorf_w "receive error: %w" e), w).
Proof.
  intros Hlim Hread. cbn [V2.wsReceiver]. unfold bind, V2.wsReceiver_body.
  rewrite Hlim. destruct (V2.wsRead Max (reader t)) as [res rerr].
  cbn [snd] in Hread. now rewrite Hread.
Qed.

End ReceiverToConn.

(** X11.  A close frame, or a transport that ends ([NextFrame] fails with
    an error that is [io.EOF]), ends the connection without error: the
    receive loop returns the wrapped end of input with the world untouched,
    and [HandleWebsocket] and [Serve], receiving it first, return [nil].
    For any other [NextFrame] error [HandleWebsocket] returns it wrapped;
    [Serve] returns [nil] for a connection reset as well. *)
Theorem X11_end_of_input_closes_cleanly `{C : Collaborators}
  (Max : Z) (connID : string) (t : Tick) (rest : list Tick)
  (Hlim : lim_Wait t = None) :
  (NextFrame_err (reader t) = None -> hdr_OpCode (reader t) = OpClose ->
   (forall w : World EventJSON,
       V1.wsReceiver Max connID (t :: rest) w
       = (Returned (fmt_Errorf_w "receive error: %w" io_EOF), w))
   /\ (forall w : World (Event EventJSON),
       V2.wsReceiver Max connID (t :: rest) w
       = (Returned (fmt_Errorf_w "receive error: %w" io_EOF), w))
   /\ Conn.HandleWebsocket (Some (fmt_Errorf_w "receive error: %w" io_EOF))
      = None
   /\ Conn.Serve (Some (fmt_Errorf_w "receive error: %w" io_EOF)) = None)
  /\ (forall e0, NextFrame_err (reader t) = Some e0 ->
      let err := fmt_Errorf_w "receive error: %w"
                   (fmt_Errorf_w "failed to get next frame: %w" e0) in
      (forall w : World EventJSON,
          V1.wsReceiver Max connID (t :: rest) w = (Returned err, w))
      /\ (forall w : World (Event EventJSON),
          V2.wsReceiver Max connID (t :: rest) w = (Returned err, w))
      /\ Conn.HandleWebsocket (Some err)
         = (if errors_Is e0 io_EOF then None
            else Some (fmt_Errorf_w "handle websocket error: %w" err))
      /\ Conn.Serve (Some err)
         = (if errors_Is e0 io_EOF || errors_Is e0 syscall_ECONNRESET
            then None
            else Some (fmt_Errorf_w "handle websocket error: %w" err))).
Proof.
  split.
  - intros Hhdr Hop.
    assert (Hread : V1.wsRead Max (reader t) = ([], Some io_EOF))
      by (unfold V1.wsRead; now rewrite Hhdr, Hop).
    split; [| split; [| split; reflexivity]]; intro w.
    + apply V1_read_error_returns; [exact Hlim | now rewrite Hread].
    + apply V2_read_error_returns; [exact Hlim |].
      rewrite V2_wsRead_eq. now rewrite Hread.
  - intros e0 Hhdr err.
    assert (Hread : V1.wsRead Max (reader t)
                    = ([], Some (fmt_Errorf_w "failed to get next frame: %w" e0)))
      by (unfold V1.wsRead; now rewrite Hhdr).
    split; [| split; [| split]].
    + intro w. apply V1_read_error_returns; [exact Hlim | now rewrite Hread].
    + intro w. apply V2_read_error_returns; [exact Hlim |].
      rewrite V2_wsRead_eq. now rewrite Hread.
    + unfold Conn.HandleWebsocket, err. cbn [errors_Is]. reflexivity.
    + unfold Conn.Serve, err. cbn [errors_Is].
      destruct (errors_Is e0 io_EOF); reflexivity.
Qed.

Lemma X11_witness :
  lim_Wait (mkTick None (mkReader None OpClose [x03; xe8] None) 200) = None
  /\ V2.wsReceiver (C := Demo.relay) 1048576 "c2"
       [mkTick None (mkReader None OpClose [x03; xe8] None) 200;
        Demo.tick [x45; x31]] (Demo.world0 _)
     = (Returned (fmt_Errorf_w "receive error: %w" io_EOF), Demo.world0 _)
  /\ Conn.Serve
       (Some (fmt_Errorf_w "receive error: %w"
                (fmt_Errorf_w "failed to get next frame: %w"
                   syscall_ECONNRESET)))
     = None.
Proof.
  split; [reflexivity |]. split.
  - exact (proj1 (proj2 (proj1 (X11_end_of_input_closes_cleanly
             (C := Demo.relay) 1048576 "c2"
             (mkTick None (mkReader None OpClose [x03; xe8] None) 200)
             [Demo.tick [x45; x31]] eq_refl) eq_refl eq_refl))
             (Demo.world0 _)).
  - exact (proj2 (proj2 (proj2 (proj2 (X11_end_of_input_closes_cleanly
             (C := Demo.relay) 1048576 "c2"
             (mkTick None (mkReader (Some syscall_ECONNRESET) OpText [] None)
                200)
             [] eq_refl) syscall_ECONNRESET eq_refl)))).
Defined.

(** X12.  On an upgraded connection whose first frame is a data frame
    longer than the maximum, with the reader task the first to report on
    [errCh]: the receive loop returns the length error, [HandleWebsocket]
    returns it wrapped, and the handler of main.go logs the websocket error,
    then the disconnect, and closes the connection last. *)
Theorem X12_oversized_frame_is_logged_and_closes `{C : Collaborators}
  (Max : Z) (connID : string) (t : Tick) (rest : list Tick)
  (r : Http.Request) (w : World EventJSON) (first : option error)
  (Hmax : 0 <= Max < int_max)
  (Hlim : lim_Wait t = None)
  (Hhdr : NextFrame_err (reader t) = None)
  (Hop : hdr_OpCode (reader t) <> OpClose)
  (Hlong : Max < len (payload_bytes (reader t)))
  (Hws : Http.wants_nip11 r = false)
  (Hup : Http.UpgradeHTTP_err r = None)
  (Hfirst : Conn.from_receiver (fst (V1.wsReceiver Max connID (t :: rest) w))
            = Some first)
  (Hret : Http.HandleWebsocket_err r = Conn.HandleWebsocket first) :
  let err := fmt_Errorf_w "receive error: %w"
               (fmt_Errorf "websocket message is too long (len=%v): %s") in
  V1.wsReceiver Max connID (t :: rest) w = (Returned err, w)
  /\ Http.HandleWebsocket_err r
     = Some (fmt_Errorf_w "handle websocket error: %w" err)
  /\ Http.Main1_handler r
     = [Http.call_UpgradeHTTP; Http.call_Log "connect websocket";
        Http.call_HandleWebsocket; Http.call_Log "websocket error";
        Http.call_Log "disconnect websocket"; Http.call_conn_Close].
Proof.
  intro err.
  assert (Hrun : V1.wsReceiver Max connID (t :: rest) w = (Returned err, w)).
  { apply V1_read_error_returns; [exact Hlim |].
    now rewrite (wsRead_too_long Max (reader t) Hmax Hlong Hhdr Hop). }
  rewrite Hrun in Hfirst. cbn in Hfirst. injection Hfirst as <-.
  cbn in Hret.
  split; [exact Hrun |]. split; [exact Hret |].
  unfold Http.Main1_handler. unfold Http.wants_nip11 in Hws.
  now rewrite Hws, Hup, Hret.
Qed.

Lemma X12_witness :
  0 <= 3 < int_max
  /\ Http.Main1_handler
       (Http.mkRequest "" None None
          (Conn.HandleWebsocket
             (Some (fmt_Errorf_w "receive error: %w"
                      (fmt_Errorf "websocket message is too long (len=%v): %s")))))
     = [Http.call_UpgradeHTTP; Http.call_Log "connect websocket";
        Http.call_HandleWebsocket; Http.call_Log "websocket error";
        Http.call_Log "disconnect websocket"; Http.call_conn_Close].
Proof.
  assert (Hmax : 0 <= 3 < int_max) by (split; [apply Z.leb_le | ]; reflexivity).
  split; [exact Hmax |].
  refine (proj2 (proj2 (X12_oversized_frame_is_logged_and_closes
            (C := Demo.relay) 3 "c2" (Demo.tick [x45; x31; x45; x31]) []
            (Http.mkRequest "" None None _) (Demo.world0 _) _
            Hmax eq_refl eq_refl _ _ eq_refl eq_refl eq_refl eq_refl))).
  - intro E; discriminate E.
  - reflexivity.
Defined.

(** X13.  In each of the three HTTP handlers a connection that was upgraded
    is served and then closed: [conn.Close] is the last call, it is made
    once, and the one call of [HandleWebsocket] (or [Serve]) precedes it,
    whatever that call returns.  A request whose upgrade fails, or, in
    main.go with flags, one that asks for the relay descriptor, is neither
    served nor closed. *)
Theorem X13_upgraded_connection_is_served_then_closed (r : Http.Request) :
  (if Http.upgrades r
   then Http.served_then_closed (Http.Main0_handler r)
   else Http.never_served (Http.Main0_handler r))
  /\ (if negb (Http.wants_nip11 r) && Http.upgrades r
      then Http.served_then_closed (Http.Main1_handler r)
      else Http.never_served (Http.Main1_handler r))
  /\ (if Http.upgrades r
      then Http.served_then_closed (Http.RelayAccessHandlerFunc r)
      else Http.never_served (Http.RelayAccessHandlerFunc r)).
Proof.
  unfold Http.upgrades, Http.wants_nip11, Http.Main0_handler,
    Http.Main1_handler, Http.RelayAccessHandlerFunc.
  destruct (String.eqb (Http.Accept r) "application/nostr+json");
    destruct (Http.HandleNip11_err r) as [e1 |];
    destruct (Http.UpgradeHTTP_err r) as [e2 |];
    destruct (Http.HandleWebsocket_err r) as [e3 |]; cbn [negb andb];
    repeat split;
    try (eexists; split;
         [ match goal with
           | |- ?l = _ => change l with (removelast l ++ [Http.call_conn_Close])
           end; reflexivity
         | split; reflexivity ]).
Qed.

(** ** Properties of the writer task *)

Section SenderLemmas.
Import SenderIO.
Variable P : Type.
Variable MarshalJSON : ServerMsg P -> list byte * option error.


Lemma written_app (a b : list Call) : written (a ++ b) = written a ++ written b.
Proof. unfold written. apply flat_map_app. Qed.

Lemma V1_loop_written (input : list (Selected P)) :
  (exists k, written (fst (V1_Sender.wsSender_loop P MarshalJSON input))
             = firstn k (map (json_of MarshalJSON) (offered input)))
  /\ (snd (V1_Sender.wsSender_loop P MarshalJSON input) = None ->
      written (fst (V1_Sender.wsSender_loop P MarshalJSON input))
      = map (json_of MarshalJSON) (offered input)).
Proof.
  induction input as [| [| msg werr] rest [[k IHk] IHall]].
  - split; [exists 0%nat |]; reflexivity.
  - split; [exists 0%nat; reflexivity | intro H; discriminate H].
  - cbn [V1_Sender.wsSender_loop offered flat_map app map].
    fold (offered rest). unfold json_of at 1 3.
    destruct (MarshalJSON msg) as [jsonMsg merr]. cbn [fst].
    assert (Hl : written match merr with
                         | Some _ => [call_Log "failed to marshal server msg"]
                         | None => []
                         end = []) by (destruct merr; reflexivity).
    destruct werr as [e |].
    + split; [| intro H; discriminate H]. exists 1%nat. cbn [fst].
      rewrite written_app, Hl. reflexivity.
    + destruct (V1_Sender.wsSender_loop P MarshalJSON rest) as [calls r].
      cbn [fst snd] in *. rewrite written_app, Hl.
      change (written (call_WriteServerText jsonMsg
                       :: call_AccessLog jsonMsg :: calls))
        with (jsonMsg :: written calls).
      cbn [app]. split.
      * exists (S k). cbn [firstn]. now rewrite IHk.
      * intro H. now rewrite IHall.
Qed.

Lemma V2_loop_written (input : list (Selected P)) :
  (exists k, written (fst (V2_Sender.wsSender_loop P MarshalJSON input))
             = firstn k (map (json_of MarshalJSON) (filter (marshals MarshalJSON)
                                      (offered input))))
  /\ (snd (V2_Sender.wsSender_loop P MarshalJSON input) = None ->
      written (fst (V2_Sender.wsSender_loop P MarshalJSON input))
      = map (json_of MarshalJSON) (filter (marshals MarshalJSON) (offered input))).
Proof.
  induction input as [| [| msg werr] rest [[k IHk] IHall]].
  - split; [exists 0%nat |]; reflexivity.
  - split; [exists 0%nat; reflexivity | intro H; discriminate H].
  - cbn [V2_Sender.wsSender_loop offered flat_map app filter].
    fold (offered rest).
    destruct (MarshalJSON msg) as [jsonMsg [me |]] eqn:Hm.
    + assert (Hmar : marshals MarshalJSON msg = false)
        by (unfold marshals; now rewrite Hm).
      rewrite Hmar.
      destruct (V2_Sender.wsSender_loop P MarshalJSON rest) as [calls r].
      cbn [fst snd] in *.
      change (written (call_Metric "promWSSendCounter"
                       :: call_Log "failed to marshal server msg" :: calls))
        with (written calls).
      split; [now exists k | exact IHall].
    + assert (Hmar : marshals MarshalJSON msg = true)
        by (unfold marshals; now rewrite Hm).
      assert (Hj : json_of MarshalJSON msg = jsonMsg) by (unfold json_of; now rewrite Hm).
      rewrite Hmar. cbn [map]. rewrite Hj. destruct werr as [e |].
      * split; [| intro H; discriminate H]. now exists 1%nat.
      * destruct (V2_Sender.wsSender_loop P MarshalJSON rest) as [calls r].
        cbn [fst snd] in *.
        change (written (call_Metric "promWSSendCounter"
                         :: call_WriteServerText jsonMsg
                         :: call_Log "send server msg" :: calls))
          with (jsonMsg :: written calls).
        split.
        -- exists (S k). cbn [firstn]. now rewrite IHk.
        -- intro H. now rewrite IHall.
Qed.

Lemma V1_loop_never_closes (input : list (Selected P)) :
  filter is_close (fst (V1_Sender.wsSender_loop P MarshalJSON input)) = [].
Proof.
  induction input as [| [| msg werr] rest IH]; try reflexivity.
  cbn [V1_Sender.wsSender_loop].
  destruct (MarshalJSON msg) as [jsonMsg merr]. destruct werr as [e |].
  - cbn [fst]. rewrite filter_app. destruct merr; reflexivity.
  - destruct (V1_Sender.wsSender_loop P MarshalJSON rest) as [calls r].
    cbn [fst] in *. rewrite filter_app. destruct merr; cbn; exact IH.
Qed.

Lemma V2_loop_never_closes (input : list (Selected P)) :
  filter is_close (fst (V2_Sender.wsSender_loop P MarshalJSON input)) = [].
Proof.
  induction input as [| [| msg werr] rest IH]; try reflexivity.
  cbn [V2_Sender.wsSender_loop].
  destruct (MarshalJSON msg) as [jsonMsg [me |]].
  - destruct (V2_Sender.wsSender_loop P MarshalJSON rest) as [calls r].
    cbn [fst] in *. cbn. exact IH.
  - destruct werr as [e |]; [reflexivity |].
    destruct (V2_Sender.wsSender_loop P MarshalJSON rest) as [calls r].
    cbn [fst] in *. cbn. exact IH.
Qed.

Lemma V1_loop_result (input : list (Selected P)) (r : option error) :
  snd (V1_Sender.wsSender_loop P MarshalJSON input) = Some r ->
  loop_result input r.
Proof.
  induction input as [| [| msg werr] rest IH]; cbn [V1_Sender.wsSender_loop].
  - intro H; discriminate H.
  - intro H. injection H as <-. now left.
  - destruct (MarshalJSON msg) as [jsonMsg merr]. destruct werr as [e |].
    + cbn [snd]. intro H. injection H as <-.
      destruct (errors_Is e net_ErrClosed) eqn:He; [now left |].
      right. exists msg, e. split; [now left | auto].
    + destruct (V1_Sender.wsSender_loop P MarshalJSON rest) as [calls r0].
      cbn [snd] in *. intro H. destruct (IH H) as [-> | (m & e & Hin & He & ->)].
      * now left.
      * right. exists m, e. split; [now right | auto].
Qed.

Lemma V2_loop_result (input : list (Selected P)) (r : option error) :
  snd (V2_Sender.wsSender_loop P MarshalJSON input) = Some r ->
  loop_result input r.
Proof.
  induction input as [| [| msg werr] rest IH]; cbn [V2_Sender.wsSender_loop].
  - intro H; discriminate H.
  - intro H. injection H as <-. now left.
  - destruct (MarshalJSON msg) as [jsonMsg [me |]].
    + destruct (V2_Sender.wsSender_loop P MarshalJSON rest) as [calls r0].
      cbn [snd] in *. intro H. destruct (IH H) as [-> | (m & e & Hin & He & ->)].
      * now left.
      * right. exists m, e. split; [now right | auto].
    + destruct werr as [e |].
      * cbn [snd]. intro H. injection H as <-.
        destruct (errors_Is e net_ErrClosed) eqn:He; [now left |].
        right. exists msg, e. split; [now left | auto].
      * destruct (V2_Sender.wsSender_loop P MarshalJSON rest) as [calls r0].
        cbn [snd] in *. intro H.
        destruct (IH H) as [-> | (m & e & Hin & He & ->)].
        -- now left.
        -- right. exists m, e. split; [now right | auto].
Qed.

End SenderLemmas.

(** X14.  The writer task writes the frames in the order the sink handed
    them over, each once: the payloads of its writes are a prefix of the
    marshalled frames offered, and all of them when it is still waiting.  In
    [V1] a frame whose marshalling failed is logged and written all the
    same; in [V2] it is logged and skipped. *)
Theorem X14_sender_writes_in_channel_order {P : Type}
  (MarshalJSON : ServerMsg P -> list byte * option error)
  (input : list (SenderIO.Selected P)) (close_err : option error) :
  let all := map (SenderIO.json_of MarshalJSON) (SenderIO.offered input) in
  let good := map (SenderIO.json_of MarshalJSON)
                (filter (SenderIO.marshals MarshalJSON)
                   (SenderIO.offered input)) in
  let run1 := V1_Sender.wsSender P MarshalJSON input close_err in
  let run2 := V2_Sender.wsSender P MarshalJSON input close_err in
  (exists k, SenderIO.written (fst run1) = firstn k all)
  /\ (snd run1 = SenderIO.Blocked -> SenderIO.written (fst run1) = all)
  /\ (exists k, SenderIO.written (fst run2) = firstn k good)
  /\ (snd run2 = SenderIO.Blocked -> SenderIO.written (fst run2) = good).
Proof.
  intros all good run1 run2. subst run1 run2.
  unfold V1_Sender.wsSender, V2_Sender.wsSender.
  destruct (V1_loop_written P MarshalJSON input) as [[k1 Hk1] Hall1].
  destruct (V2_loop_written P MarshalJSON input) as [[k2 Hk2] Hall2].
  destruct (V1_Sender.wsSender_loop P MarshalJSON input) as [c1 [r1 |]];
    destruct (V2_Sender.wsSender_loop P MarshalJSON input) as [c2 [r2 |]];
    cbn [fst snd] in *; repeat rewrite written_app;
    change (SenderIO.written [SenderIO.call_WriteClose]) with (@nil (list byte));
    repeat rewrite app_nil_r;
    (split; [now exists k1 |]);
    (split; [try (intro H; discriminate H); intros _; now apply Hall1 |]);
    (split; [now exists k2 |]);
    try (intro H; discriminate H); intros _; now apply Hall2.
Qed.

Lemma X14_witness :
  snd (V2_Sender.wsSender Z DemoSender.MarshalJSON
         [SenderIO.received (ServerEventMsg "a" 1) None;
          SenderIO.received (ServerEventMsg "bad" 2) None;
          SenderIO.received (ServerEOSEMsg "a") None] None)
  = SenderIO.Blocked
  /\ SenderIO.written
       (fst (V2_Sender.wsSender Z DemoSender.MarshalJSON
               [SenderIO.received (ServerEventMsg "a" 1) None;
                SenderIO.received (ServerEventMsg "bad" 2) None;
                SenderIO.received (ServerEOSEMsg "a") None] None))
     = [[x45; x61]; [x4f; x61]].
Proof.
  split; [reflexivity |].
  rewrite (proj2 (proj2 (proj2 (X14_sender_writes_in_channel_order
             DemoSender.MarshalJSON
             [SenderIO.received (ServerEventMsg "a" 1) None;
              SenderIO.received (ServerEventMsg "bad" 2) None;
              SenderIO.received (ServerEOSEMsg "a") None] None))) eq_refl).
  reflexivity.
Defined.

(** X15.  The writer task writes the close frame exactly when it returns,
    once, as its last call, however its loop ended (context done or a failed
    write); while it waits it has written none.  Both revisions. *)
Theorem X15_sender_closes_once_on_return {P : Type}
  (MarshalJSON : ServerMsg P -> list byte * option error)
  (input : list (SenderIO.Selected P)) (close_err : option error) :
  let closes_last (run : list SenderIO.Call * SenderIO.Outcome) :=
    match snd run with
    | SenderIO.Blocked => filter SenderIO.is_close (fst run) = []
    | SenderIO.Returned _ =>
        exists before,
          fst run = before ++ [SenderIO.call_WriteClose]
          /\ filter SenderIO.is_close before = []
    end in
  closes_last (V1_Sender.wsSender P MarshalJSON input close_err)
  /\ closes_last (V2_Sender.wsSender P MarshalJSON input close_err).
Proof.
  intro closes_last. subst closes_last. cbv beta.
  unfold V1_Sender.wsSender, V2_Sender.wsSender.
  pose proof (V1_loop_never_closes P MarshalJSON input) as H1.
  pose proof (V2_loop_never_closes P MarshalJSON input) as H2.
  destruct (V1_Sender.wsSender_loop P MarshalJSON input) as [c1 [r1 |]];
    destruct (V2_Sender.wsSender_loop P MarshalJSON input) as [c2 [r2 |]];
    cbn [fst snd] in *; split; eauto.
Qed.

(** X16.  What the writer task returns.  A failure of the close frame write
    other than a closed connection replaces whatever the loop returned.
    Otherwise the result is that of the loop: [nil] after the context was
    done or a write hit a closed connection, else the wrapped error of the
    failed write.  In no case is the error returned a closed connection.
    Both revisions. *)
Theorem X16_sender_result {P : Type}
  (MarshalJSON : ServerMsg P -> list byte * option error)
  (input : list (SenderIO.Selected P)) (close_err r : option error)
  (Hreturned :
     snd (V1_Sender.wsSender P MarshalJSON input close_err)
     = SenderIO.Returned r
     \/ snd (V2_Sender.wsSender P MarshalJSON input close_err)
        = SenderIO.Returned r) :
  match close_err with
  | Some e =>
      if errors_Is e net_ErrClosed then SenderIO.loop_result input r
      else r = Some (fmt_Errorf_w "failed to send close frame: %w" e)
  | None => SenderIO.loop_result input r
  end
  /\ forall err, r = Some err -> errors_Is err net_ErrClosed = false.
Proof.
  assert (Hloop : exists r0, SenderIO.loop_result input r0
                             /\ r = SenderIO.deferred_close close_err r0).
  { destruct Hreturned as [H | H];
      unfold V1_Sender.wsSender, V2_Sender.wsSender in H.
    - pose proof (V1_loop_result P MarshalJSON input) as Hr.
      destruct (V1_Sender.wsSender_loop P MarshalJSON input) as [c [r0 |]];
        cbn [snd] in *; [| discriminate H].
      injection H as <-. exists r0. split; [now apply Hr | reflexivity].
    - pose proof (V2_loop_result P MarshalJSON input) as Hr.
      destruct (V2_Sender.wsSender_loop P MarshalJSON input) as [c [r0 |]];
        cbn [snd] in *; [| discriminate H].
      injection H as <-. exists r0. split; [now apply Hr | reflexivity]. }
  destruct Hloop as (r0 & Hr0 & ->).
  assert (Hnot : forall err, r0 = Some err -> errors_Is err net_ErrClosed = false).
  { intros err ->. destruct Hr0 as [H | (m & e & _ & He & H)];
      [discriminate H |]. injection H as ->. exact He. }
  unfold SenderIO.deferred_close.
  destruct close_err as [e |]; [| split; assumption].
  destruct (errors_Is e net_ErrClosed) eqn:He; [split; assumption |].
  split; [reflexivity |]. intros err H. injection H as <-. exact He.
Qed.

Lemma X16_witness :
  snd (V1_Sender.wsSender Z DemoSender.MarshalJSON
         [SenderIO.received (ServerEOSEMsg "a") (Some (external "broken pipe"))]
         (Some (external "broken pipe")))
  = SenderIO.Returned
      (Some (fmt_Errorf_w "failed to send close frame: %w"
               (external "broken pipe")))
  /\ errors_Is (fmt_Errorf_w "failed to send close frame: %w"
                  (external "broken pipe")) net_ErrClosed = false.
Proof.
  split; [reflexivity |].
  exact (proj2 (X16_sender_result DemoSender.MarshalJSON
                  [SenderIO.received (ServerEOSEMsg "a")
                     (Some (external "broken pipe"))]
                  (Some (external "broken pipe")) _ (or_introl eq_refl))
           _ eq_refl).
Defined.
